(** * Potluck: formula evaluation, column assembly and the sort comparator

    A shallow embedding of the formula module ([evaluateFormula],
    [evaluateColumns] and the five functions of its [API] object) and of
    [compareColumnValues] from [SheetComponent.tsx], with the properties
    the specification states about them.

    Conventions of the embedding:
    - a computation that may throw returns an [Outcome];
    - a JavaScript [number] is an IEEE-754 binary64 value, [spec_float];
    - character offsets ([Span] components, document positions) are
      integers, [Z];
    - a value of TypeScript type [any] is an [Any]: a piece of data
      ([Value]) or a callable function. *)

From Stdlib Require Import ZArith List Ascii String Bool Lia.
From Stdlib Require Import Floats.SpecFloat.
From stdpp Require Import base option list strings pretty gmap.

Set Warnings "-register-all".

Local Open Scope string_scope.
Local Open Scope list_scope.
Local Open Scope Z_scope.

(** ** Outcomes: normal completion or a thrown exception *)

(** The exceptions the modelled code can raise.  [RangeError] carries
    the offending position, as the message of [Text.lineAt] does. *)
Inductive Exception : Type :=
  | TypeError
  | RangeError (pos : Z)
  | SyntaxError
  | ReferenceError (name : string).

Inductive Outcome (A : Type) : Type :=
  | Returns (a : A)
  | Throws (e : Exception).

Arguments Returns {A} a.
Arguments Throws {A} e.

Module OutcomeMonad.

Definition ret {A : Type} (a : A) : Outcome A := Returns a.

Definition bind {A B : Type} (c : Outcome A) (k : A -> Outcome B) : Outcome B :=
  match c with
  | Returns a => k a
  | Throws e => Throws e
  end.

End OutcomeMonad.

Notation "'let!' x ':=' c 'in' k" := (OutcomeMonad.bind c (fun x => k))
  (at level 10, x name, c at level 100, k at level 200).

(** ** JavaScript numbers *)

Module Number.

Definition number : Type := spec_float.

Definition prec : Z := 53.
Definition emax : Z := 1024.

(** The double nearest to an integer (how an integer literal or an
    integer offset is held). *)
Definition ofZ (z : Z) : number := binary_normalize prec emax z 0 false.

Definition zero : number := S754_zero false.
Definition one : number := Eval cbv in ofZ 1.
Definition minusOne : number := Eval cbv in ofZ (-1).

(** [-x] *)
Definition neg (x : number) : number := SFopp x.

(** [x - y] *)
Definition sub (x y : number) : number := SFsub prec emax x y.

(** [x === 0]: true for both zeros, false for NaN. *)
Definition isZero (x : number) : bool := SFeqb x zero.

(** [x > 0] and [x < 0] *)
Definition isPositive (x : number) : bool := SFltb zero x.
Definition isNegative (x : number) : bool := SFltb x zero.

End Number.

Import Number.

(** ** Data model *)

(** [Span]: half-open character offsets [[start, end]]. *)
Definition Span : Type := (Z * Z)%type.

(** [Snippet] (from [./primitives]): the fields the formula API reads. *)
Record Snippet : Type := mkSnippet {
  type : string;
  span : Span
}.

(** Data of type [any]. *)
Inductive Value : Type :=
  | VUndefined
  | VNull
  | VBoolean (b : bool)
  | VNumber (n : number)
  | VString (s : string)
  | VArray (items : list Value)
  | VSnippet (snippet : Snippet).

(** A value of type [any]: data, or a function called with one
    argument ([isFunction] holds of the latter only). *)
Inductive Any : Type :=
  | Data (v : Value)
  | Callable (f : Value -> Outcome Any).

(** JavaScript truthiness ([ToBoolean]). *)
Definition truthy (v : Value) : bool :=
  match v with
  | VUndefined | VNull => false
  | VBoolean b => b
  | VNumber n =>
      match n with
      | S754_zero _ | S754_nan => false
      | _ => true
      end
  | VString s => negb (String.eqb s "")
  | VArray _ | VSnippet _ => true
  end.

Definition truthyAny (a : Any) : bool :=
  match a with
  | Data v => truthy v
  | Callable _ => true
  end.

(** lodash [isFunction] *)
Definition isFunction (a : Any) : bool :=
  match a with
  | Data _ => false
  | Callable _ => true
  end.

(** ** The document: [Text] of [@codemirror/state] *)

(** A [Text] is a non-empty sequence of lines; consecutive lines are
    separated by one line break, which counts for one position. *)
Record Text : Type := mkText {
  firstLine : string;
  moreLines : list string
}.

Module TextOps.

Definition len (s : string) : Z := Z.of_nat (String.length s).

Fixpoint lengthFrom (line : string) (rest : list string) : Z :=
  match rest with
  | [] => len line
  | next :: rest' => len line + 1 + lengthFrom next rest'
  end.

(** [doc.length] *)
Definition length (doc : Text) : Z := lengthFrom (firstLine doc) (moreLines doc).

(** Number of the line that holds [pos], the current line being
    [line], numbered [number] and starting at offset [from]. *)
Fixpoint lineNumberFrom (number from : Z) (line : string) (rest : list string)
    (pos : Z) : Z :=
  match rest with
  | [] => number
  | next :: rest' =>
      if pos <=? from + len line then number
      else lineNumberFrom (number + 1) (from + len line + 1) next rest' pos
  end.

(** [doc.lineAt(pos).number]: lines are numbered from 1; a position
    outside [0 .. doc.length] raises a [RangeError]. *)
Definition lineAt_number (doc : Text) (pos : Z) : Outcome Z :=
  if (pos <? 0) || (length doc <? pos) then Throws (RangeError pos)
  else Returns (lineNumberFrom 1 0 (firstLine doc) (moreLines doc) pos).

End TextOps.

(** ** The formula API *)

Module API.

Section WithDocument.

Variable snippets : list Snippet.
Variable doc : Text.

(** [VALUES_OF_TYPE: (type) => snippets.filter((snippet) => snippet.type === type)] *)
Definition VALUES_OF_TYPE (ty : string) : list Snippet :=
  List.filter (fun snippet => String.eqb (type snippet) ty) snippets.

(** [ON_SAME_LINE], called with both arguments. *)
Definition ON_SAME_LINE (a b : Snippet) : Outcome bool :=
  let! lineStartA := TextOps.lineAt_number doc (fst (span a)) in
  let! lineEndA := TextOps.lineAt_number doc (snd (span a)) in
  let! lineStartB := TextOps.lineAt_number doc (fst (span b)) in
  let! lineEndB := TextOps.lineAt_number doc (snd (span b)) in
  Returns ((lineStartA =? lineEndA) &&
           (lineStartB =? lineEndB) &&
           (lineStartA =? lineStartB)).

End WithDocument.

(** [Array.prototype.filter]: the callback runs on each element in
    order; an exception it throws ends the traversal. *)
Fixpoint Array_filter (callback : Value -> Outcome Any) (l : list Value)
    : Outcome (list Value) :=
  match l with
  | [] => Returns []
  | item :: rest =>
      let! keep := callback item in
      let! kept := Array_filter callback rest in
      Returns (if truthyAny keep then item :: kept else kept)
  end.

(** [FILTER], called with both arguments. *)
Definition FILTER (list : Datatypes.list Value) (condition : Any)
    : Outcome (Datatypes.list Value) :=
  Array_filter
    (fun item =>
       match condition with
       | Callable f => f item
       | Data _ => Returns (Data item)
       end)
    list.

(** [list[i]] on an array: [undefined] when the index is absent. *)
Definition index (list : list Value) (i : nat) : Value :=
  match list !! i with
  | Some v => v
  | None => VUndefined
  end.

(** [FIRST: (list) => list[0]] *)
Definition FIRST (list : list Value) : Value := index list 0.

(** [SECOND: (list) => list[1]] *)
Definition SECOND (list : list Value) : Value := index list 1.

End API.

(** ** Column evaluation *)

(** [FormulaColumn] *)
Record FormulaColumn : Type := mkColumn {
  name : string;
  formula : string
}.

(** [ResultRow = {[name: string]: any}] *)
Abbreviation ResultRow := (gmap string Any).

(** The object [API] that [evaluateFormula] builds and hands to the
    compiled formula. *)
Record ApiObject : Type := mkApi {
  api_VALUES_OF_TYPE : string -> list Snippet;
  api_ON_SAME_LINE : Snippet -> Snippet -> Outcome bool;
  api_FILTER : list Value -> Any -> Outcome (list Value);
  api_FIRST : list Value -> Value;
  api_SECOND : list Value -> Value
}.

(** The JavaScript engine, as far as [evaluateFormula] uses it: the
    outcome of
    [new Function('API', `with (API) { return ${source} }`)(API)]. *)
Definition Engine : Type := string -> ApiObject -> Outcome Any.

(** Computations that record which columns had their formula
    evaluated, in order. *)
Module Traced.

Definition M (A : Type) : Type := (list FormulaColumn * Outcome A)%type.

Definition ret {A : Type} (a : A) : M A := ([], Returns a).

Definition bind {A B : Type} (c : M A) (k : A -> M B) : M B :=
  match c with
  | (t, Returns a) => let '(t', r) := k a in (t ++ t', r)
  | (t, Throws e) => (t, Throws e)
  end.

(** An evaluation of [column]'s formula, with outcome [o]. *)
Definition evaluating {A : Type} (column : FormulaColumn) (o : Outcome A) : M A :=
  ([column], o).

End Traced.

Notation "'do!' x ':=' c 'in' k" := (Traced.bind c (fun x => k))
  (at level 10, x name, c at level 100, k at level 200).

(** [const API = {...}]: the five functions, closed over [snippets]
    and [doc]. *)
Definition makeAPI (snippets : list Snippet) (doc : Text) : ApiObject :=
  {| api_VALUES_OF_TYPE := API.VALUES_OF_TYPE snippets;
     api_ON_SAME_LINE := API.ON_SAME_LINE doc;
     api_FILTER := API.FILTER;
     api_FIRST := API.FIRST;
     api_SECOND := API.SECOND |}.

Section Evaluation.

Variable engine : Engine.

Definition evaluateFormula (source : string) (snippets : list Snippet)
    (doc : Text) : Outcome Any :=
  let API := makeAPI snippets doc in
  engine source API.

(** The rows one evaluated column contributes: [isArray(result)]
    holds of arrays only. *)
Definition rowsOf (column : FormulaColumn) (result : Any) : list ResultRow :=
  match result with
  | Data (VArray items) =>
      List.map (fun item => {[ name column := Data item ]}) items
  | _ => [ {[ name column := result ]} ]
  end.

Section Loop.

Variable snippets : list Snippet.
Variable doc : Text.

(** The [for (const column of columns)] loop, from the state
    [resultRows]. *)
Fixpoint evaluateColumns_loop (columns : list FormulaColumn)
    (resultRows : list ResultRow) : Traced.M (list ResultRow) :=
  match columns with
  | [] => Traced.ret resultRows
  | column :: rest =>
      if (List.length resultRows =? 0)%nat then
        do! result := Traced.evaluating column
                        (evaluateFormula (formula column) snippets doc) in
        evaluateColumns_loop rest (resultRows ++ rowsOf column result)
      else
        evaluateColumns_loop rest resultRows
  end.

End Loop.

Definition evaluateColumns_traced (columns : list FormulaColumn)
    (snippets : list Snippet) (doc : Text) : Traced.M (list ResultRow) :=
  evaluateColumns_loop snippets doc columns [].

(** What [evaluateColumns] hands to its caller. *)
Definition evaluateColumns (columns : list FormulaColumn)
    (snippets : list Snippet) (doc : Text) : Outcome (list ResultRow) :=
  snd (evaluateColumns_traced columns snippets doc).

(** The columns whose formula a call of [evaluateColumns] evaluates. *)
Definition evaluatedColumns (columns : list FormulaColumn)
    (snippets : list Snippet) (doc : Text) : list FormulaColumn :=
  fst (evaluateColumns_traced columns snippets doc).

(** A column whose formula evaluates to the empty array, and so
    contributes no row. *)
Definition yieldsNoRow (snippets : list Snippet) (doc : Text)
    (column : FormulaColumn) : Prop :=
  evaluateFormula (formula column) snippets doc = Returns (Data (VArray [])).

End Evaluation.

(** ** The sort comparator of [SheetComponent.tsx] *)

Module Sheet.

(** [SheetValueRow] (from [./primitives]): the fields the comparator
    reads.  [span] is read only of rows that [isValueRowHighlight]
    accepts. *)
Record SheetValueRow : Type := mkRow {
  data : gmap string Value;
  span : Span
}.

Inductive SortMethod : Type := Date | Alphabetical | Numeric.

Inductive Direction : Type := asc | desc.

(** [row.data[columnName]] *)
Definition cell (row : SheetValueRow) (columnName : string) : Value :=
  match data row !! columnName with
  | Some v => v
  | None => VUndefined
  end.

(** [v === undefined] *)
Definition isUndefined (v : Value) : bool :=
  match v with
  | VUndefined => true
  | _ => false
  end.

Section Comparator.

(** [./utils] is not part of the sources: its two functions are
    parameters.  [isValueRowHighlight] is applied to cells and to
    rows; each use has its own parameter. *)
Variable isValueRowHighlight : Value -> bool.
Variable isValueRowHighlight_row : SheetValueRow -> bool.
Variable getTextForHighlight : Value -> Value.

(** The three comparisons done by the JavaScript runtime:
    [new Date(a).getTime() - new Date(b).getTime()],
    [parseFloat(a) - parseFloat(b)] and [String(a).localeCompare(b)]. *)
Variable dateDifference : Value -> Value -> number.
Variable floatDifference : Value -> Value -> number.
Variable localeCompare : Value -> Value -> number.

(** [aValue] and [bValue] *)
Definition columnValue (row : SheetValueRow) (columnName : string) : Value :=
  if isValueRowHighlight (cell row columnName)
  then getTextForHighlight (cell row columnName)
  else cell row columnName.

(** [rv] before the direction is applied. *)
Definition primaryComparison (a b : SheetValueRow) (columnName : string)
    (sortMethod : SortMethod) : number :=
  let aValue := columnValue a columnName in
  let bValue := columnValue b columnName in
  if isUndefined aValue then
    if isUndefined bValue then zero else one
  else if isUndefined bValue then
    minusOne
  else
    match sortMethod with
    | Date => dateDifference aValue bValue
    | Numeric => floatDifference aValue bValue
    | Alphabetical => localeCompare aValue bValue
    end.

(** [isValueRowHighlight(a) && isValueRowHighlight(b) ? a.span[0] - b.span[0] : 0] *)
Definition tieBreak (a b : SheetValueRow) : number :=
  if isValueRowHighlight_row a && isValueRowHighlight_row b
  then sub (ofZ (fst (span a))) (ofZ (fst (span b)))
  else zero.

Definition compareColumnValues (a b : SheetValueRow) (columnName : string)
    (sortMethod : SortMethod) (direction : Direction) : number :=
  let rv := primaryComparison a b columnName sortMethod in
  let rv :=
    match direction with
    | desc => neg rv
    | asc => rv
    end in
  if isZero rv then tieBreak a b else rv.

End Comparator.

End Sheet.

(** ** A fragment of JavaScript expressions

    To run [evaluateColumns] on concrete formulas, the engine is given
    on a fragment of the expressions a formula may be: non-negative
    decimal integer literals, single-quoted strings without escapes,
    [undefined], [null], [true], [false], array literals and calls of
    the API functions.  [Fragment.run] is [None] on every other
    source. *)

Module Fragment.

Inductive Token : Type :=
  | TNum (z : Z)
  | TStr (s : string)
  | TIdent (s : string)
  | TLBracket | TRBracket | TLParen | TRParen | TComma.

Inductive LexState : Type :=
  | Idle
  | InNum (z : Z)
  | InIdent (s : string)
  | InStr (s : string).

Definition code (c : ascii) : N := Ascii.N_of_ascii c.

Definition isDigit (c : ascii) : bool :=
  ((48 <=? code c) && (code c <=? 57))%N.

Definition isIdentStart (c : ascii) : bool :=
  (((65 <=? code c) && (code c <=? 90)) ||
   ((97 <=? code c) && (code c <=? 122)) ||
   (code c =? 95))%N.

Definition isBlank (c : ascii) : bool :=
  ((code c =? 32) || (code c =? 9))%N.

Definition digitValue (c : ascii) : Z := Z.of_N (code c) - 48.

Definition snoc (s : string) (c : ascii) : string :=
  s ++ String c EmptyString.

(** A character met outside any token. *)
Definition idleStep (c : ascii) : option (list Token * LexState) :=
  if isBlank c then Some ([], Idle)
  else if isDigit c then Some ([], InNum (digitValue c))
  else if isIdentStart c then Some ([], InIdent (String c EmptyString))
  else if (code c =? 39)%N then Some ([], InStr EmptyString)
  else if (code c =? 91)%N then Some ([TLBracket], Idle)
  else if (code c =? 93)%N then Some ([TRBracket], Idle)
  else if (code c =? 40)%N then Some ([TLParen], Idle)
  else if (code c =? 41)%N then Some ([TRParen], Idle)
  else if (code c =? 44)%N then Some ([TComma], Idle)
  else None.

Definition prepend (t : Token) (r : option (list Token * LexState))
    : option (list Token * LexState) :=
  match r with
  | Some (ts, st) => Some (t :: ts, st)
  | None => None
  end.

(** One character of input.  A literal with a leading [0] followed by
    a digit, a letter right after a number, a line break and a
    backslash in a string are outside the fragment. *)
Definition lexStep (st : LexState) (c : ascii) : option (list Token * LexState) :=
  match st with
  | Idle => idleStep c
  | InNum z =>
      if isDigit c then
        if z =? 0 then None else Some ([], InNum (10 * z + digitValue c))
      else if isIdentStart c then None
      else prepend (TNum z) (idleStep c)
  | InIdent s =>
      if isIdentStart c || isDigit c then Some ([], InIdent (snoc s c))
      else prepend (TIdent s) (idleStep c)
  | InStr s =>
      if (code c =? 39)%N then Some ([TStr s], Idle)
      else if ((code c =? 92) || (code c =? 10) || (code c =? 13))%N then None
      else Some ([], InStr (snoc s c))
  end.

Fixpoint lex (st : LexState) (source : string) : option (list Token) :=
  match source with
  | EmptyString =>
      match st with
      | Idle => Some []
      | InNum z => Some [TNum z]
      | InIdent s => Some [TIdent s]
      | InStr _ => None
      end
  | String c rest =>
      match lexStep st c with
      | Some (ts, st') =>
          match lex st' rest with
          | Some ts' => Some (ts ++ ts')
          | None => None
          end
      | None => None
      end
  end.

Inductive ApiName : Type :=
  | VALUES_OF_TYPE | ON_SAME_LINE | FILTER | FIRST | SECOND.

Definition apiName (s : string) : option ApiName :=
  if String.eqb s "VALUES_OF_TYPE" then Some VALUES_OF_TYPE
  else if String.eqb s "ON_SAME_LINE" then Some ON_SAME_LINE
  else if String.eqb s "FILTER" then Some FILTER
  else if String.eqb s "FIRST" then Some FIRST
  else if String.eqb s "SECOND" then Some SECOND
  else None.

Inductive Expr : Type :=
  | ENum (z : Z)
  | EStr (s : string)
  | EUndefined
  | ENull
  | EBool (b : bool)
  | EArray (elements : list Expr)
  | ECall (f : ApiName) (args : list Expr).

(** Recursive descent; [fuel] bounds the nesting depth plus the number
    of elements and is taken from the number of tokens. *)
Fixpoint parseExpr (fuel : nat) (ts : list Token) : option (Expr * list Token) :=
  match fuel with
  | O => None
  | S fuel' =>
      match ts with
      | TNum z :: ts' => Some (ENum z, ts')
      | TStr s :: ts' => Some (EStr s, ts')
      | TLBracket :: TRBracket :: ts' => Some (EArray [], ts')
      | TLBracket :: ts' =>
          match parseElements fuel' ts' with
          | Some (es, TRBracket :: ts'') => Some (EArray es, ts'')
          | _ => None
          end
      | TIdent s :: ts' =>
          if String.eqb s "undefined" then Some (EUndefined, ts')
          else if String.eqb s "null" then Some (ENull, ts')
          else if String.eqb s "true" then Some (EBool true, ts')
          else if String.eqb s "false" then Some (EBool false, ts')
          else
            match apiName s, ts' with
            | Some f, TLParen :: TRParen :: ts'' => Some (ECall f [], ts'')
            | Some f, TLParen :: ts'' =>
                match parseElements fuel' ts'' with
                | Some (es, TRParen :: ts3) => Some (ECall f es, ts3)
                | _ => None
                end
            | _, _ => None
            end
      | _ => None
      end
  end
with parseElements (fuel : nat) (ts : list Token)
    : option (list Expr * list Token) :=
  match fuel with
  | O => None
  | S fuel' =>
      match parseExpr fuel' ts with
      | Some (e, TComma :: ts') =>
          match parseElements fuel' ts' with
          | Some (es, ts'') => Some (e :: es, ts'')
          | None => None
          end
      | Some (e, ts') => Some ([e], ts')
      | None => None
      end
  end.

(** The expression of [return ${source}]: a source of blanks only
    gives [return], that is [undefined]. *)
Definition parse (source : string) : option Expr :=
  match lex Idle source with
  | Some [] => Some EUndefined
  | Some ts =>
      match parseExpr (S (2 * List.length ts)) ts with
      | Some (e, []) => Some e
      | _ => None
      end
  | None => None
  end.

(** Array elements and arguments of the fragment are data. *)
Definition asData (a : Any) : option Value :=
  match a with
  | Data v => Some v
  | Callable _ => None
  end.

Section Eval.

Variable API : ApiObject.

(** [ON_SAME_LINE(a)]: the curried function waits for [b].  A [b]
    without a [span] fails at [b.span[0]], after the two [lineAt]
    calls on [a]. *)
Definition onSameLineWith (a : Snippet) : Value -> Outcome Any :=
  fun b =>
    match b with
    | VSnippet sb =>
        let! r := api_ON_SAME_LINE API a sb in
        Returns (Data (VBoolean r))
    | _ =>
        let! r := api_ON_SAME_LINE API a a in
        Throws TypeError
    end.

(** A call of an API function on evaluated arguments; [None] when
    the arguments are not of the declared types, except for
    [undefined] and [null] where the member access throws. *)
Definition call (f : ApiName) (args : list Value) : option (Outcome Any) :=
  match f, args with
  | VALUES_OF_TYPE, [VString ty] =>
      Some (Returns (Data (VArray (List.map VSnippet (api_VALUES_OF_TYPE API ty)))))
  | FIRST, [VArray l] => Some (Returns (Data (api_FIRST API l)))
  | FIRST, [VUndefined] | FIRST, [VNull] => Some (Throws TypeError)
  | SECOND, [VArray l] => Some (Returns (Data (api_SECOND API l)))
  | SECOND, [VUndefined] | SECOND, [VNull] => Some (Throws TypeError)
  | ON_SAME_LINE, [VSnippet a] => Some (Returns (Callable (onSameLineWith a)))
  | ON_SAME_LINE, [VSnippet a; b] => Some (onSameLineWith a b)
  | _, _ => None
  end.

(** [FILTER(list, condition)], whose second argument may be a
    function. *)
Definition callFilter (list : Any) (condition : Any) : option (Outcome Any) :=
  match list with
  | Data (VArray l) =>
      Some (let! kept := api_FILTER API l condition in
            Returns (Data (VArray kept)))
  | Data VUndefined | Data VNull => Some (Throws TypeError)
  | _ => None
  end.

Fixpoint eval (e : Expr) : option (Outcome Any) :=
  let evalAll :=
    fix evalAll (es : list Expr) : option (Outcome (list Any)) :=
      match es with
      | [] => Some (Returns [])
      | e :: rest =>
          match eval e with
          | Some (Returns v) =>
              match evalAll rest with
              | Some (Returns vs) => Some (Returns (v :: vs))
              | other => other
              end
          | Some (Throws x) => Some (Throws x)
          | None => None
          end
      end in
  match e with
  | ENum z => Some (Returns (Data (VNumber (ofZ z))))
  | EStr s => Some (Returns (Data (VString s)))
  | EUndefined => Some (Returns (Data VUndefined))
  | ENull => Some (Returns (Data VNull))
  | EBool b => Some (Returns (Data (VBoolean b)))
  | EArray elements =>
      match evalAll elements with
      | Some (Returns vs) =>
          match mapM asData vs with
          | Some items => Some (Returns (Data (VArray items)))
          | None => None
          end
      | Some (Throws e) => Some (Throws e)
      | None => None
      end
  | ECall FILTER [list; condition] =>
      match evalAll [list; condition] with
      | Some (Returns [l; c]) => callFilter l c
      | Some (Returns _) => None
      | Some (Throws e) => Some (Throws e)
      | None => None
      end
  | ECall f args =>
      match evalAll args with
      | Some (Returns vs) =>
          match mapM asData vs with
          | Some items => call f items
          | None => None
          end
      | Some (Throws e) => Some (Throws e)
      | None => None
      end
  end.

End Eval.

Definition run (source : string) (API : ApiObject) : option (Outcome Any) :=
  match parse source with
  | Some e => eval API e
  | None => None
  end.

(** The engine on the fragment; outside it the source is rejected. *)
Definition engine : Engine :=
  fun source API =>
    match run source API with
    | Some o => o
    | None => Throws SyntaxError
    end.

End Fragment.

(** ** Sample inputs *)

Module Sample.

(** A two-line document: ["milk 2 cups"] and ["eggs 3"]. *)
Definition doc : Text := mkText "milk 2 cups" ["eggs 3"].

Definition milk : Snippet := mkSnippet "food" (0, 4).
Definition two : Snippet := mkSnippet "quantity" (5, 6).
Definition eggs : Snippet := mkSnippet "food" (12, 16).
Definition three : Snippet := mkSnippet "quantity" (17, 18).

Definition snippets : list Snippet := [milk; two; eggs; three].

Definition five : Value := VNumber (ofZ 5).
Definition six : Value := VNumber (ofZ 6).

(** Columns of formulas of the fragment. *)
Definition column (name formula : string) : FormulaColumn :=
  mkColumn name formula.

(** A sheet of plain data: no cell and no row is a highlight. *)
Definition noHighlight : Value -> bool := fun _ => false.
Definition noHighlightRow : Sheet.SheetValueRow -> bool := fun _ => false.
Definition noText : Value -> Value := fun _ => VUndefined.

(** A sheet whose rows are all highlights. *)
Definition allHighlightRows : Sheet.SheetValueRow -> bool := fun _ => true.

(** Comparisons of the runtime, on the strings of one lower-case letter
    used below: [localeCompare] orders them as their code units do. *)
Definition letterCompare (a b : Value) : number :=
  match a, b with
  | VString x, VString y =>
      match String.compare x y with
      | Lt => minusOne
      | Eq => zero
      | Gt => one
      end
  | _, _ => S754_nan
  end.

Definition notANumber : Value -> Value -> number := fun _ _ => S754_nan.

(** The rows [{data: {n: 'a'}}], [{data: {n: 'b'}}] and
    [{data: {n: undefined}}]. *)
Definition rowA : Sheet.SheetValueRow :=
  Sheet.mkRow {[ "n" := VString "a" ]} (0, 0).
Definition rowB : Sheet.SheetValueRow :=
  Sheet.mkRow {[ "n" := VString "b" ]} (0, 0).
Definition rowUndefined : Sheet.SheetValueRow :=
  Sheet.mkRow {[ "n" := VUndefined ]} (0, 0).

(** Two highlight rows with the same cell, at offsets 12 and 0. *)
Definition rowAt12 : Sheet.SheetValueRow :=
  Sheet.mkRow {[ "n" := VString "a" ]} (12, 16).
Definition rowAt0 : Sheet.SheetValueRow :=
  Sheet.mkRow {[ "n" := VString "a" ]} (0, 4).

(** [compareColumnValues] on the plain-data sheet. *)
Definition comparePlain :=
  Sheet.compareColumnValues noHighlight noHighlightRow noText
    notANumber notANumber letterCompare.

End Sample.

(** A snippet whose two span offsets are positions of the document. *)
Definition insideDocument (doc : Text) (s : Snippet) : Prop :=
  (0 <= fst (span s) <= TextOps.length doc) /\
  (0 <= snd (span s) <= TextOps.length doc).

(** ** Auxiliary notions for the statements below *)

(** A position that [Text.lineAt] rejects. *)
Definition outside (doc : Text) (pos : Z) : bool :=
  (pos <? 0) || (TextOps.length doc <? pos).

(** Whether [FILTER]'s callback keeps [item] under the callable
    condition [f]: the call returns a truthy value. *)
Definition keptBy (f : Value -> Outcome Any) (item : Value) : bool :=
  match f item with
  | Returns r => truthyAny r
  | Throws _ => false
  end.

(** The condition returns on [item]. *)
Definition returnsOn (f : Value -> Outcome Any) (item : Value) : Prop :=
  exists r, f item = Returns r.

(** The sign of a number, as [Array.prototype.sort] reads a comparator's
    result: [Some Lt] below 0, [Some Eq] for both zeros, [Some Gt]
    above 0, [None] for NaN. *)
Definition signOf (x : number) : option comparison := SFcompare x zero.

Definition oppositeSign (s : option comparison) : option comparison :=
  match s with
  | Some c => Some (CompOpp c)
  | None => None
  end.

(** ** Column settings, sort state and search range of the sheet view *)

Module Settings.

(** [PropertyDefinition]: the three fields that [addColumn] writes.
    [PropertyVisibility] is an enumeration of [./primitives], taken as
    a parameter. *)
Record PropertyDefinition (PropertyVisibility : Type) : Type := mkProperty {
  name : string;
  formula : string;
  visibility : PropertyVisibility
}.

Arguments mkProperty {PropertyVisibility} name formula visibility.
Arguments name {PropertyVisibility} _.
Arguments formula {PropertyVisibility} _.
Arguments visibility {PropertyVisibility} _.

Section WithVisibility.

Context {PropertyVisibility : Type}.
Variable Hidden : PropertyVisibility.

(** [changeFormulaAt]: the new value of [sheetConfig.properties]. *)
Definition changeFormulaAt (properties : list (PropertyDefinition PropertyVisibility))
    (changedIndex : Z) (formula : string)
    : list (PropertyDefinition PropertyVisibility) :=
  imap (fun index column =>
          if Z.of_nat index =? changedIndex
          then mkProperty (name column) formula (visibility column)
          else column)
       properties.

(** [changeNameAt]: the new value of [sheetConfig.properties]. *)
Definition changeNameAt (properties : list (PropertyDefinition PropertyVisibility))
    (changedIndex : Z) (name : string)
    : list (PropertyDefinition PropertyVisibility) :=
  imap (fun index column =>
          if Z.of_nat index =? changedIndex
          then mkProperty name (Settings.formula column) (visibility column)
          else column)
       properties.

(** [++i] on the module counter [i], an integer held in a double: the
    increment is exact below [2^53] and leaves [2^53] unchanged. *)
Definition increment (i : Z) : Z :=
  if i <? 2 ^ 53 then i + 1 else i.

(** [addColumn]: the counter [i] and [sheetConfig.properties] after the
    call. *)
Definition addColumn (i : Z) (properties : list (PropertyDefinition PropertyVisibility))
    : Z * list (PropertyDefinition PropertyVisibility) :=
  let i := increment i in
  (i, properties ++ [mkProperty ("col" +:+ pretty i) "" Hidden]).

(** [n] calls of [addColumn]. *)
Fixpoint addColumns (n : nat) (i : Z)
    (properties : list (PropertyDefinition PropertyVisibility))
    : Z * list (PropertyDefinition PropertyVisibility) :=
  match n with
  | O => (i, properties)
  | S n' =>
      let '(i', properties') := addColumn i properties in
      addColumns n' i' properties'
  end.

End WithVisibility.

(** The state [sortBy] of [SheetTable]. *)
Record SortBy : Type := mkSortBy {
  columnName : string;
  direction : Sheet.Direction
}.

Definition isAsc (d : Sheet.Direction) : bool :=
  match d with
  | Sheet.asc => true
  | Sheet.desc => false
  end.

Definition isDesc (d : Sheet.Direction) : bool :=
  match d with
  | Sheet.asc => false
  | Sheet.desc => true
  end.

(** The [onClick] handler of the ascending arrow of the column
    [column]: the value given to [setSortBy]. *)
Definition clickAscending (column : string) (sortBy : option SortBy)
    : option SortBy :=
  match sortBy with
  | Some s =>
      if String.eqb (columnName s) column && isAsc (direction s)
      then None
      else Some (mkSortBy column Sheet.asc)
  | None => Some (mkSortBy column Sheet.asc)
  end.

(** The [onClick] handler of the descending arrow. *)
Definition clickDescending (column : string) (sortBy : option SortBy)
    : option SortBy :=
  match sortBy with
  | Some s =>
      if String.eqb (columnName s) column && isDesc (direction s)
      then None
      else Some (mkSortBy column Sheet.desc)
  | None => Some (mkSortBy column Sheet.desc)
  end.

(** A click on the arrow of direction [d]. *)
Definition click (d : Sheet.Direction) (column : string)
    (sortBy : option SortBy) : option SortBy :=
  match d with
  | Sheet.asc => clickAscending column sortBy
  | Sheet.desc => clickDescending column sortBy
  end.

(** The table is sorted by [column] in direction [d]. *)
Definition sortedBy (d : Sheet.Direction) (column : string)
    (sortBy : option SortBy) : bool :=
  match sortBy with
  | Some s =>
      String.eqb (columnName s) column &&
      (match d with Sheet.asc => isAsc | Sheet.desc => isDesc end) (direction s)
  | None => false
  end.

(** The two buttons under the sheet that write
    [textDocumentSheet.highlightSearchRange]: [Clear], and the limit
    to the editor selection [from .. to]. *)
Inductive RangeEvent : Type :=
  | Clear
  | LimitToSelection (from to : Z).

Definition handleRange (highlightSearchRange : option Span) (ev : RangeEvent)
    : option Span :=
  match ev with
  | Clear => None
  | LimitToSelection from to =>
      if negb (from =? to) then Some (from, to) else highlightSearchRange
  end.

(** A stored range is never of width 0. *)
Definition rangeNotEmpty (highlightSearchRange : option Span) : Prop :=
  match highlightSearchRange with
  | Some (from, to) => from <> to
  | None => True
  end.

End Settings.

(** * Properties of the formula API *)

Section ApiFacts.

Lemma lineAt_number_inside (doc : Text) (pos : Z) :
  0 <= pos <= TextOps.length doc ->
  TextOps.lineAt_number doc pos =
    Returns (TextOps.lineNumberFrom 1 0 (firstLine doc) (moreLines doc) pos).
Proof.
  intros [Hlo Hhi]. unfold TextOps.lineAt_number.
  destruct (Z.ltb_spec pos 0) as [Hneg | _]; [lia |].
  destruct (Z.ltb_spec (TextOps.length doc) pos) as [Hbig | _]; [lia |].
  reflexivity.
Qed.

Lemma same_line_test_sym (sa ea sb eb : Z) :
  (sa =? ea) && (sb =? eb) && (sa =? sb) =
  (sb =? eb) && (sa =? ea) && (sb =? sa).
Proof.
  rewrite (Z.eqb_sym sb sa).
  rewrite (andb_comm (sa =? ea) (sb =? eb)). reflexivity.
Qed.

Lemma filter_type_elem (snippets : list Snippet) (ty : string) (s : Snippet) :
  s ∈ API.VALUES_OF_TYPE snippets ty <-> s ∈ snippets /\ type s = ty.
Proof.
  unfold API.VALUES_OF_TYPE.
  rewrite !list_elem_of_In, filter_In, String.eqb_eq. reflexivity.
Qed.

Lemma filter_type_sublist (snippets : list Snippet) (ty : string) :
  sublist (API.VALUES_OF_TYPE snippets ty) snippets.
Proof.
  unfold API.VALUES_OF_TYPE.
  induction snippets as [| s rest IH]; simpl.
  - constructor.
  - destruct (String.eqb (type s) ty).
    + now apply sublist_skip.
    + now apply sublist_cons.
Qed.

Lemma filter_type_greatest (snippets l : list Snippet) (ty : string) :
  sublist l snippets ->
  Forall (fun s => type s = ty) l ->
  sublist l (API.VALUES_OF_TYPE snippets ty).
Proof.
  unfold API.VALUES_OF_TYPE.
  induction 1 as [| s l1 l2 Hsub IH | s l1 l2 Hsub IH]; intros Hall; simpl.
  - constructor.
  - inversion Hall as [| ? ? Hty Hrest]; subst.
    rewrite String.eqb_refl. apply sublist_skip. now apply IH.
  - destruct (String.eqb (type s) ty).
    + apply sublist_cons. now apply IH.
    + now apply IH.
Qed.

Lemma Array_filter_identity_callback (l : list Value) :
  API.Array_filter (fun item => Returns (Data item)) l =
    Returns (List.filter truthy l).
Proof.
  induction l as [| item rest IH]; simpl.
  - reflexivity.
  - rewrite IH. simpl. reflexivity.
Qed.

Lemma filter_fixed_iff (l : list Value) :
  List.filter truthy l = l <-> forallb truthy l = true.
Proof.
  induction l as [| item rest IH]; simpl.
  - tauto.
  - destruct (truthy item) eqn:Hitem; simpl.
    + rewrite <- IH. split.
      * intros H. injection H as H. exact H.
      * intros H. f_equal. exact H.
    + split; [| discriminate].
      intros Heq.
      assert (Hlen : (List.length (List.filter truthy rest) <= List.length rest)%nat)
        by apply filter_length_le.
      rewrite Heq in Hlen. simpl in Hlen. lia.
Qed.

End ApiFacts.

(** C7. [VALUES_OF_TYPE(T)] over the snippet list [S] is exactly the
    subsequence of [S] of the snippets whose [type] is [T], in the
    order of [S]: it is a subsequence of [S], it holds the snippets
    of [S] of type [T] and no other, and every subsequence of [S]
    made of snippets of type [T] is a subsequence of it. *)
Theorem VALUES_OF_TYPE_exact_subsequence (S : list Snippet) (T : string) :
  sublist (API.VALUES_OF_TYPE S T) S /\
  (forall s, s ∈ API.VALUES_OF_TYPE S T <-> s ∈ S /\ type s = T) /\
  (forall l, sublist l S /\ Forall (fun s => type s = T) l ->
             sublist l (API.VALUES_OF_TYPE S T)).
Proof.
  split; [apply filter_type_sublist |].
  split; [intros s; apply filter_type_elem |].
  intros l [Hsub Hall]. now apply filter_type_greatest.
Qed.

(** C8. [ON_SAME_LINE] is symmetric: for two snippets whose spans lie
    inside the document, [ON_SAME_LINE(a, b)] and [ON_SAME_LINE(b, a)]
    return the same boolean. *)
Theorem ON_SAME_LINE_symmetric (doc : Text) (a b : Snippet) :
  insideDocument doc a ->
  insideDocument doc b ->
  exists r : bool,
    API.ON_SAME_LINE doc a b = Returns r /\
    API.ON_SAME_LINE doc b a = Returns r.
Proof.
  intros [Ha0 Ha1] [Hb0 Hb1]. unfold API.ON_SAME_LINE.
  rewrite !lineAt_number_inside by assumption. simpl.
  eexists; split; [reflexivity |].
  f_equal. apply same_line_test_sym.
Qed.

Lemma ON_SAME_LINE_symmetric_witness :
  exists r : bool,
    API.ON_SAME_LINE Sample.doc Sample.milk Sample.two = Returns r /\
    API.ON_SAME_LINE Sample.doc Sample.two Sample.milk = Returns r.
Proof.
  apply (ON_SAME_LINE_symmetric Sample.doc Sample.milk Sample.two);
    repeat split; apply Z.leb_le; reflexivity.
Defined.

(** C9. [FIRST(list)] is the element at index 0 and [SECOND(list)] the
    element at index 1, and each is [undefined] when the list has no
    such index; so [FIRST([])] and [SECOND([1])] are [undefined],
    [FIRST([5,6])] is [5] and [SECOND([5,6])] is [6]. *)
Theorem FIRST_SECOND_by_index :
  (forall x rest, API.FIRST (x :: rest) = x) /\
  API.FIRST [] = VUndefined /\
  (forall x y rest, API.SECOND (x :: y :: rest) = y) /\
  (forall x, API.SECOND [x] = VUndefined) /\
  API.SECOND [] = VUndefined /\
  (forall l, (exists x, l !! 0%nat = Some x /\ API.FIRST l = x) \/
             (l !! 0%nat = None /\ API.FIRST l = VUndefined)) /\
  (forall l, (exists y, l !! 1%nat = Some y /\ API.SECOND l = y) \/
             (l !! 1%nat = None /\ API.SECOND l = VUndefined)) /\
  API.SECOND [VNumber one] = VUndefined /\
  API.FIRST [Sample.five; Sample.six] = Sample.five /\
  API.SECOND [Sample.five; Sample.six] = Sample.six.
Proof.
  repeat split; try reflexivity.
  - intros l. unfold API.FIRST, API.index.
    destruct (l !! 0%nat) as [x |] eqn:Hl; [left; eauto | right; auto].
  - intros l. unfold API.SECOND, API.index.
    destruct (l !! 1%nat) as [y |] eqn:Hl; [left; eauto | right; auto].
Qed.

(** C2, as the code has it.  With a second argument that is not
    callable, [FILTER(list, condition)] keeps the truthy elements of
    [list], in order, and drops the falsy ones; it returns [list]
    unchanged exactly when every element of [list] is truthy. *)
Theorem FILTER_not_callable_keeps_truthy (l : list Value) (condition : Value) :
  API.FILTER l (Data condition) = Returns (List.filter truthy l) /\
  (API.FILTER l (Data condition) = Returns l <-> forallb truthy l = true).
Proof.
  assert (Heq : API.FILTER l (Data condition) = Returns (List.filter truthy l))
    by apply Array_filter_identity_callback.
  split; [exact Heq |].
  rewrite Heq, <- filter_fixed_iff.
  split.
  - intros H. injection H as H. exact H.
  - intros H. f_equal. exact H.
Qed.

(** C2 fails as stated: [FILTER([0, 1], 'not a function')] is [[1]],
    not [[0, 1]]. *)
Lemma FILTER_not_callable_drops_falsy :
  API.FILTER [VNumber zero; VNumber one] (Data (VString "not a function"))
    = Returns [VNumber one] /\
  API.FILTER [VNumber zero; VNumber one] (Data (VString "not a function"))
    <> Returns [VNumber zero; VNumber one].
Proof.
  split; [reflexivity | discriminate].
Qed.

(** * Properties of the sort comparator *)

Lemma isZero_neg (x : number) : isZero (neg x) = isZero x.
Proof.
  destruct x as [s | s | | s m e]; try destruct s; reflexivity.
Qed.

Lemma one_positive : isPositive one = true /\ isZero one = false.
Proof. split; reflexivity. Qed.

Lemma minusOne_negative : isNegative minusOne = true /\ isZero minusOne = false.
Proof. split; reflexivity. Qed.

Lemma isUndefined_true (v : Value) : Sheet.isUndefined v = true <-> v = VUndefined.
Proof. destruct v; simpl; split; congruence. Qed.

Lemma isUndefined_false (v : Value) : v <> VUndefined -> Sheet.isUndefined v = false.
Proof. destruct v; simpl; congruence. Qed.

Section ComparatorFacts.

Import Sheet.

Variable isValueRowHighlight : Value -> bool.
Variable isValueRowHighlight_row : SheetValueRow -> bool.
Variable getTextForHighlight : Value -> Value.
Variable dateDifference floatDifference localeCompare : Value -> Value -> number.

Local Abbreviation value := (columnValue isValueRowHighlight getTextForHighlight).
Local Abbreviation primary :=
  (primaryComparison isValueRowHighlight getTextForHighlight
     dateDifference floatDifference localeCompare).
Local Abbreviation compare :=
  (compareColumnValues isValueRowHighlight isValueRowHighlight_row
     getTextForHighlight dateDifference floatDifference localeCompare).

(** C6. When the primary comparison is 0, the result is
    [a.span[0] - b.span[0]] if both rows are highlights and 0
    otherwise, in either direction; when it is not 0, the result is
    the primary comparison, negated for the descending direction.  So
    the direction changes the sign of the primary comparison and
    never that of the tie-break. *)
Theorem tie_break_by_span_start (a b : SheetValueRow) (columnName : string)
    (sortMethod : SortMethod) (direction : Direction) :
  compare a b columnName sortMethod direction =
    if isZero (primary a b columnName sortMethod) then
      if isValueRowHighlight_row a && isValueRowHighlight_row b
      then sub (ofZ (fst (span a))) (ofZ (fst (span b)))
      else zero
    else
      match direction with
      | asc => primary a b columnName sortMethod
      | desc => neg (primary a b columnName sortMethod)
      end.
Proof.
  unfold compare, compareColumnValues, tieBreak. fold primary.
  destruct direction; [reflexivity |].
  rewrite isZero_neg. reflexivity.
Qed.

(** C1, as the code has it.  With the ascending direction, a row whose
    value is [undefined] comes after a row whose value is defined
    (the result is 1 when [a] has the undefined value, -1 when [b]
    has it).  With the descending direction these results are negated
    like every other primary comparison, so the row with the undefined
    value comes first.  When both values are [undefined] the primary
    comparison is 0 in both directions. *)
Theorem undefined_follows_direction (a b : SheetValueRow) (columnName : string)
    (sortMethod : SortMethod) :
  (value a columnName = VUndefined /\ value b columnName <> VUndefined ->
     compare a b columnName sortMethod asc = one /\
     compare a b columnName sortMethod desc = minusOne) /\
  (value a columnName <> VUndefined /\ value b columnName = VUndefined ->
     compare a b columnName sortMethod asc = minusOne /\
     compare a b columnName sortMethod desc = one) /\
  (value a columnName = VUndefined /\ value b columnName = VUndefined ->
     primary a b columnName sortMethod = zero).
Proof.
  unfold compare, compareColumnValues, primary, primaryComparison. fold value.
  split; [| split]; intros [Ha Hb].
  - apply isUndefined_false in Hb. rewrite Ha, Hb. split; reflexivity.
  - apply isUndefined_false in Ha. rewrite Ha, Hb. split; reflexivity.
  - rewrite Ha, Hb. reflexivity.
Qed.

End ComparatorFacts.

(** C1 fails as stated: with the descending direction the row whose
    value is defined is not ordered first.  Comparing
    [{data: {n: 'a'}}] with [{data: {n: undefined}}] gives 1, which
    places the row with the undefined value before the other. *)
Lemma undefined_first_when_descending :
  Sample.comparePlain Sample.rowA Sample.rowUndefined "n" Sheet.Alphabetical Sheet.desc
    = one /\
  isNegative
    (Sample.comparePlain Sample.rowA Sample.rowUndefined "n" Sheet.Alphabetical Sheet.desc)
    = false /\
  Sample.comparePlain Sample.rowUndefined Sample.rowA "n" Sheet.Alphabetical Sheet.desc
    = minusOne.
Proof.
  repeat split; vm_compute; reflexivity.
Qed.

Lemma undefined_follows_direction_witness :
  Sample.comparePlain Sample.rowUndefined Sample.rowA "n" Sheet.Alphabetical Sheet.asc
    = one /\
  Sample.comparePlain Sample.rowUndefined Sample.rowA "n" Sheet.Alphabetical Sheet.desc
    = minusOne.
Proof.
  apply (undefined_follows_direction Sample.noHighlight Sample.noHighlightRow
           Sample.noText Sample.notANumber Sample.notANumber Sample.letterCompare
           Sample.rowUndefined Sample.rowA "n" Sheet.Alphabetical).
  split; [reflexivity | discriminate].
Defined.

(** * Properties of the column evaluator *)

Section EvaluationFacts.

Variable engine : Engine.
Variable snippets : list Snippet.
Variable doc : Text.

Local Abbreviation run := (evaluateColumns_loop engine snippets doc).
Local Abbreviation value column :=
  (evaluateFormula engine (formula column) snippets doc).
Local Abbreviation noRow := (yieldsNoRow engine snippets doc).

(** Once a row exists, the loop evaluates nothing more. *)
Lemma loop_with_rows (columns : list FormulaColumn) (resultRows : list ResultRow) :
  resultRows <> [] ->
  run columns resultRows = ([], Returns resultRows).
Proof.
  intros Hrows. induction columns as [| column rest IH].
  - reflexivity.
  - destruct resultRows as [| row rows]; [contradiction |].
    cbn [evaluateColumns_loop List.length Nat.eqb]. exact IH.
Qed.

(** One turn of the loop while no row exists. *)
Lemma loop_without_rows (column : FormulaColumn) (rest : list FormulaColumn) :
  run (column :: rest) [] =
    match value column with
    | Returns result =>
        (column :: fst (run rest (rowsOf column result)),
         snd (run rest (rowsOf column result)))
    | Throws e => ([column], Throws e)
    end.
Proof.
  cbn [evaluateColumns_loop List.length Nat.eqb app].
  unfold Traced.evaluating, Traced.bind.
  destruct (evaluateFormula engine (formula column) snippets doc) as [result | e];
    [| reflexivity].
  destruct (evaluateColumns_loop engine snippets doc rest (rowsOf column result));
    reflexivity.
Qed.

Lemma rowsOf_empty (column : FormulaColumn) (result : Any) :
  rowsOf column result = [] <-> result = Data (VArray []).
Proof.
  destruct result as [v | f]; [| simpl; split; discriminate].
  destruct v; simpl; try (split; discriminate).
  destruct items as [| item items]; simpl; split;
    try reflexivity; discriminate.
Qed.

Lemma loop_all_empty (columns : list FormulaColumn) :
  Forall noRow columns ->
  run columns [] = (columns, Returns []).
Proof.
  induction 1 as [| column rest Hcol Hrest IH].
  - reflexivity.
  - rewrite loop_without_rows.
    unfold yieldsNoRow in Hcol. rewrite Hcol. cbn [rowsOf List.map].
    rewrite IH. reflexivity.
Qed.

Lemma loop_skips_empty (pre columns : list FormulaColumn) :
  Forall noRow pre ->
  run (pre ++ columns) [] =
    (pre ++ fst (run columns []), snd (run columns [])).
Proof.
  induction 1 as [| column rest Hcol Hrest IH]; cbn [app].
  - destruct (run columns []); reflexivity.
  - rewrite loop_without_rows.
    unfold yieldsNoRow in Hcol. rewrite Hcol. cbn [rowsOf List.map].
    rewrite IH. reflexivity.
Qed.

Lemma loop_throws (pre post : list FormulaColumn) (column : FormulaColumn)
    (e : Exception) :
  Forall noRow pre ->
  value column = Throws e ->
  run (pre ++ column :: post) [] = (pre ++ [column], Throws e).
Proof.
  intros Hpre Hthrow. rewrite loop_skips_empty by assumption.
  rewrite loop_without_rows, Hthrow. reflexivity.
Qed.

Lemma loop_rows (pre post : list FormulaColumn) (column : FormulaColumn)
    (result : Any) :
  Forall noRow pre ->
  value column = Returns result ->
  result <> Data (VArray []) ->
  run (pre ++ column :: post) [] =
    (pre ++ [column], Returns (rowsOf column result)).
Proof.
  intros Hpre Hvalue Hresult. rewrite loop_skips_empty by assumption.
  rewrite loop_without_rows, Hvalue.
  rewrite loop_with_rows; [reflexivity |].
  intros Hnil. apply rowsOf_empty in Hnil. contradiction.
Qed.

Lemma result_empty_or_not (result : Any) :
  result = Data (VArray []) \/ result <> Data (VArray []).
Proof.
  destruct result as [v | f]; [| right; discriminate].
  destruct v; try (right; discriminate).
  destruct items; [left; reflexivity | right; discriminate].
Qed.

(** Every column list is made of columns without rows only, or has a
    first column that throws or yields rows. *)
Lemma columns_shape (columns : list FormulaColumn) :
  Forall noRow columns \/
  (exists pre post column e,
     columns = pre ++ column :: post /\ Forall noRow pre /\
     value column = Throws e) \/
  (exists pre post column result,
     columns = pre ++ column :: post /\ Forall noRow pre /\
     value column = Returns result /\ result <> Data (VArray [])).
Proof.
  induction columns as [| column rest IH].
  - left. constructor.
  - destruct (value column) as [result | e] eqn:Hvalue.
    + destruct (result_empty_or_not result) as [Hempty | Hrows].
      * subst result.
        destruct IH as [Hall | [(pre & post & c & e & Heq & Hpre & Hthrow)
                              | (pre & post & c & result & Heq & Hpre & Hval & Hrows)]].
        -- left. constructor; assumption.
        -- right; left. exists (column :: pre), post, c, e.
           rewrite Heq. repeat split; [constructor |]; assumption.
        -- right; right. exists (column :: pre), post, c, result.
           rewrite Heq. repeat split; [constructor | |]; assumption.
      * right; right. exists [], rest, column, result.
        repeat split; [constructor | |]; assumption.
    + right; left. exists [], rest, column, e.
      repeat split; [constructor |]; assumption.
Qed.

Lemma rowsOf_keys (column : FormulaColumn) (result : Any) :
  Forall (fun row : ResultRow => dom row = ({[ name column ]} : gset string) /\ size row = 1%nat)
         (rowsOf column result).
Proof.
  assert (Hone : forall v : Any,
            dom ({[ name column := v ]} : ResultRow) = ({[ name column ]} : gset string) /\
            size ({[ name column := v ]} : ResultRow) = 1%nat).
  { intros v. split; [apply dom_singleton_L | apply map_size_singleton]. }
  destruct result as [v | f]; [| repeat constructor; apply Hone].
  destruct v; try (repeat constructor; apply Hone).
  simpl. induction items as [| item items IH]; simpl; constructor; auto.
Qed.

End EvaluationFacts.

(** C3, as the code has it.  [evaluateColumns] has no handler: when
    the first column whose formula does not evaluate to an empty list
    throws, the exception goes to the caller of [evaluateColumns], no
    row is returned and no later column is evaluated. *)
Theorem evaluateColumns_propagates_exception (engine : Engine)
    (snippets : list Snippet) (doc : Text)
    (pre post : list FormulaColumn) (column : FormulaColumn) (e : Exception) :
  Forall (yieldsNoRow engine snippets doc) pre ->
  evaluateFormula engine (formula column) snippets doc = Throws e ->
  evaluateColumns engine (pre ++ column :: post) snippets doc = Throws e /\
  evaluatedColumns engine (pre ++ column :: post) snippets doc = pre ++ [column].
Proof.
  intros Hpre Hthrow.
  unfold evaluateColumns, evaluatedColumns, evaluateColumns_traced.
  rewrite (loop_throws engine snippets doc pre post column e Hpre Hthrow).
  split; reflexivity.
Qed.

Lemma evaluateColumns_propagates_exception_witness :
  evaluateColumns Fragment.engine
    ([Sample.column "a" "[]"] ++
     Sample.column "b" "FIRST(undefined)" :: [Sample.column "c" "99"])
    Sample.snippets Sample.doc = Throws TypeError /\
  evaluatedColumns Fragment.engine
    ([Sample.column "a" "[]"] ++
     Sample.column "b" "FIRST(undefined)" :: [Sample.column "c" "99"])
    Sample.snippets Sample.doc =
    [Sample.column "a" "[]"] ++ [Sample.column "b" "FIRST(undefined)"].
Proof.
  apply (evaluateColumns_propagates_exception Fragment.engine
           Sample.snippets Sample.doc
           [Sample.column "a" "[]"] [Sample.column "c" "99"]
           (Sample.column "b" "FIRST(undefined)") TypeError).
  - repeat constructor.
  - reflexivity.
Defined.

(** C3 fails as stated: the formula [FIRST(undefined)] throws a
    [TypeError], and [evaluateColumns] on the columns
    [a: FIRST(undefined)], [b: 99] throws it too instead of returning
    rows; column [b] is not evaluated. *)
Lemma evaluateColumns_throws :
  Fragment.run "FIRST(undefined)" (makeAPI Sample.snippets Sample.doc)
    = Some (Throws TypeError) /\
  evaluateColumns Fragment.engine
    [Sample.column "a" "FIRST(undefined)"; Sample.column "b" "99"]
    Sample.snippets Sample.doc = Throws TypeError /\
  (forall rows,
     evaluateColumns Fragment.engine
       [Sample.column "a" "FIRST(undefined)"; Sample.column "b" "99"]
       Sample.snippets Sample.doc <> Returns rows) /\
  evaluatedColumns Fragment.engine
    [Sample.column "a" "FIRST(undefined)"; Sample.column "b" "99"]
    Sample.snippets Sample.doc = [Sample.column "a" "FIRST(undefined)"].
Proof.
  repeat split; try reflexivity.
  intros rows. discriminate.
Qed.

(** C4, as the code has it.  When the first column's formula evaluates
    to a non-empty list or to a value that is not a list,
    [evaluateColumns] evaluates that formula only and returns its
    rows: one row per element of the list, or a single row for the
    other value.  (When it evaluates to the empty list the next
    column is evaluated.) *)
Theorem first_column_only_when_it_yields_rows (engine : Engine)
    (snippets : list Snippet) (doc : Text)
    (column : FormulaColumn) (rest : list FormulaColumn) (result : Any) :
  evaluateFormula engine (formula column) snippets doc = Returns result ->
  result <> Data (VArray []) ->
  evaluatedColumns engine (column :: rest) snippets doc = [column] /\
  evaluateColumns engine (column :: rest) snippets doc =
    Returns
      match result with
      | Data (VArray items) =>
          List.map (fun item => ({[ name column := Data item ]} : ResultRow)) items
      | _ => [ {[ name column := result ]} ]
      end.
Proof.
  intros Hvalue Hrows.
  unfold evaluateColumns, evaluatedColumns, evaluateColumns_traced.
  pose proof (loop_rows engine snippets doc [] rest column result
                (List.Forall_nil _) Hvalue Hrows) as Hloop.
  cbn [app] in Hloop. rewrite Hloop.
  split; reflexivity.
Qed.

Lemma first_column_only_when_it_yields_rows_witness :
  evaluatedColumns Fragment.engine
    (Sample.column "a" "[1,2,3]" :: [Sample.column "b" "99"])
    Sample.snippets Sample.doc = [Sample.column "a" "[1,2,3]"] /\
  evaluateColumns Fragment.engine
    (Sample.column "a" "[1,2,3]" :: [Sample.column "b" "99"])
    Sample.snippets Sample.doc =
    Returns [ {[ "a" := Data (VNumber (ofZ 1)) ]};
              {[ "a" := Data (VNumber (ofZ 2)) ]};
              {[ "a" := Data (VNumber (ofZ 3)) ]} ].
Proof.
  apply (first_column_only_when_it_yields_rows Fragment.engine
           Sample.snippets Sample.doc
           (Sample.column "a" "[1,2,3]") [Sample.column "b" "99"]
           (Data (VArray [VNumber (ofZ 1); VNumber (ofZ 2); VNumber (ofZ 3)]))).
  - reflexivity.
  - discriminate.
Defined.

(** C4 fails as stated: on the columns [a: []], [b: 99] the formula of
    the second column is evaluated, and the row returned comes from
    it. *)
Lemma second_column_evaluated_after_empty_list :
  Fragment.run "[]" (makeAPI Sample.snippets Sample.doc)
    = Some (Returns (Data (VArray []))) /\
  evaluatedColumns Fragment.engine
    [Sample.column "a" "[]"; Sample.column "b" "99"]
    Sample.snippets Sample.doc =
    [Sample.column "a" "[]"; Sample.column "b" "99"] /\
  evaluateColumns Fragment.engine
    [Sample.column "a" "[]"; Sample.column "b" "99"]
    Sample.snippets Sample.doc =
    Returns [ {[ "b" := Data (VNumber (ofZ 99)) ]} ].
Proof.
  repeat split; reflexivity.
Qed.

(** C5, as the code has it.  [evaluateColumns] returns the empty row
    list exactly when every column's formula evaluates to the empty
    list; in particular on the empty column list.  (A formula whose
    value is [undefined] gives one row.) *)
Theorem evaluateColumns_empty_iff_no_column_yields (engine : Engine)
    (snippets : list Snippet) (doc : Text) :
  evaluateColumns engine [] snippets doc = Returns [] /\
  forall columns,
    evaluateColumns engine columns snippets doc = Returns [] <->
    Forall (yieldsNoRow engine snippets doc) columns.
Proof.
  split; [reflexivity |].
  intros columns. unfold evaluateColumns, evaluateColumns_traced. split.
  - intros Hempty.
    destruct (columns_shape engine snippets doc columns)
      as [Hall | [(pre & post & c & e & Heq & Hpre & Hthrow)
                | (pre & post & c & result & Heq & Hpre & Hval & Hrows)]].
    + exact Hall.
    + subst columns.
      rewrite (loop_throws engine snippets doc pre post c e Hpre Hthrow) in Hempty.
      discriminate.
    + subst columns.
      rewrite (loop_rows engine snippets doc pre post c result Hpre Hval Hrows)
        in Hempty.
      cbn [snd] in Hempty. injection Hempty as Hnil.
      apply rowsOf_empty in Hnil. contradiction.
  - intros Hall. rewrite (loop_all_empty engine snippets doc columns Hall).
    reflexivity.
Qed.

(** C5 fails as stated: when the first formula's value is [undefined]
    the result is one row, [{a: undefined}], not the empty list. *)
Lemma undefined_value_gives_one_row :
  Fragment.run "undefined" (makeAPI Sample.snippets Sample.doc)
    = Some (Returns (Data VUndefined)) /\
  evaluateColumns Fragment.engine [Sample.column "a" "undefined"]
    Sample.snippets Sample.doc = Returns [ {[ "a" := Data VUndefined ]} ] /\
  evaluateColumns Fragment.engine [Sample.column "a" "undefined"]
    Sample.snippets Sample.doc <> Returns [].
Proof.
  repeat split; try reflexivity. discriminate.
Qed.

(** C10. The rows that [evaluateColumns] returns all have exactly one
    key, the same for all: the name of the earliest column whose
    formula evaluates to something else than the empty list (a value
    that is not a list, or a non-empty list).  The columns before it
    evaluate to the empty list, and no column after it is evaluated.
    When there is no such column, no row is returned. *)
Theorem rows_share_the_key_of_the_first_yielding_column (engine : Engine)
    (snippets : list Snippet) (doc : Text)
    (columns : list FormulaColumn) (rows : list ResultRow) :
  evaluateColumns engine columns snippets doc = Returns rows ->
  (rows = [] /\ Forall (yieldsNoRow engine snippets doc) columns) \/
  (exists pre post column result,
     columns = pre ++ column :: post /\
     Forall (yieldsNoRow engine snippets doc) pre /\
     evaluateFormula engine (formula column) snippets doc = Returns result /\
     result <> Data (VArray []) /\
     rows = rowsOf column result /\
     rows <> [] /\
     Forall (fun row : ResultRow =>
               dom row = ({[ name column ]} : gset string) /\ size row = 1%nat)
            rows /\
     evaluatedColumns engine columns snippets doc = pre ++ [column]).
Proof.
  unfold evaluateColumns, evaluatedColumns, evaluateColumns_traced.
  intros Hrows.
  destruct (columns_shape engine snippets doc columns)
    as [Hall | [(pre & post & c & e & Heq & Hpre & Hthrow)
              | (pre & post & c & result & Heq & Hpre & Hval & Hne)]].
  - left. rewrite (loop_all_empty engine snippets doc columns Hall) in Hrows.
    cbn [snd] in Hrows. injection Hrows as <-. split; [reflexivity | exact Hall].
  - subst columns.
    rewrite (loop_throws engine snippets doc pre post c e Hpre Hthrow) in Hrows.
    discriminate.
  - right. exists pre, post, c, result. subst columns.
    rewrite (loop_rows engine snippets doc pre post c result Hpre Hval Hne) in *.
    cbn [snd fst] in *. injection Hrows as <-.
    repeat split; try assumption; try reflexivity.
    + intros Hnil. apply rowsOf_empty in Hnil. contradiction.
    + apply rowsOf_keys.
Qed.

Lemma rows_share_the_key_of_the_first_yielding_column_witness :
  ([ {[ "b" := Data (VSnippet Sample.milk) ]};
     {[ "b" := Data (VSnippet Sample.eggs) ]} ] : list ResultRow) = [] /\
  Forall (yieldsNoRow Fragment.engine Sample.snippets Sample.doc)
    [Sample.column "a" "VALUES_OF_TYPE('drink')";
     Sample.column "b" "VALUES_OF_TYPE('food')";
     Sample.column "c" "FIRST(undefined)"] \/
  (exists pre post column result,
     [Sample.column "a" "VALUES_OF_TYPE('drink')";
      Sample.column "b" "VALUES_OF_TYPE('food')";
      Sample.column "c" "FIRST(undefined)"] = pre ++ column :: post /\
     Forall (yieldsNoRow Fragment.engine Sample.snippets Sample.doc) pre /\
     evaluateFormula Fragment.engine (formula column) Sample.snippets Sample.doc
       = Returns result /\
     result <> Data (VArray []) /\
     [ {[ "b" := Data (VSnippet Sample.milk) ]};
       {[ "b" := Data (VSnippet Sample.eggs) ]} ] = rowsOf column result /\
     ([ {[ "b" := Data (VSnippet Sample.milk) ]};
        {[ "b" := Data (VSnippet Sample.eggs) ]} ] : list ResultRow) <> [] /\
     Forall (fun row : ResultRow =>
               dom row = ({[ name column ]} : gset string) /\ size row = 1%nat)
            [ {[ "b" := Data (VSnippet Sample.milk) ]};
              {[ "b" := Data (VSnippet Sample.eggs) ]} ] /\
     evaluatedColumns Fragment.engine
       [Sample.column "a" "VALUES_OF_TYPE('drink')";
        Sample.column "b" "VALUES_OF_TYPE('food')";
        Sample.column "c" "FIRST(undefined)"]
       Sample.snippets Sample.doc = pre ++ [column]).
Proof.
  apply (rows_share_the_key_of_the_first_yielding_column Fragment.engine
           Sample.snippets Sample.doc).
  reflexivity.
Defined.

(** * Worked examples *)

(** The formulas used above are in the fragment. *)
Lemma sample_formulas_in_fragment :
  Forall (fun source =>
            exists o, Fragment.run source (makeAPI Sample.snippets Sample.doc) = Some o)
    ["[]"; "99"; "[1,2,3]"; "undefined"; "FIRST(undefined)";
     "VALUES_OF_TYPE('drink')"; "VALUES_OF_TYPE('food')"].
Proof.
  repeat constructor; eexists; reflexivity.
Qed.

(** A formula with a callable condition: the food on the line of the
    first quantity. *)
Example filter_on_same_line :
  evaluateFormula Fragment.engine
    "FILTER(VALUES_OF_TYPE('food'), ON_SAME_LINE(FIRST(VALUES_OF_TYPE('quantity'))))"
    Sample.snippets Sample.doc
  = Returns (Data (VArray [VSnippet Sample.milk])).
Proof. reflexivity. Qed.

(** A snippet that spans a line break is on no line. *)
Example spanning_snippet_not_on_a_line :
  API.ON_SAME_LINE Sample.doc (mkSnippet "note" (5, 14)) (mkSnippet "note" (5, 14))
  = Returns false.
Proof. reflexivity. Qed.

(** A position past the end of the document. *)
Example ON_SAME_LINE_outside_document :
  API.ON_SAME_LINE Sample.doc Sample.milk (mkSnippet "note" (17, 40))
  = Throws (RangeError 40).
Proof. reflexivity. Qed.

(** Equal cells of two highlight rows at offsets 12 and 0: the result
    is 12 in both directions. *)
Example tie_break_same_in_both_directions :
  Sheet.compareColumnValues Sample.noHighlight Sample.allHighlightRows Sample.noText
    Sample.notANumber Sample.notANumber Sample.letterCompare
    Sample.rowAt12 Sample.rowAt0 "n" Sheet.Alphabetical Sheet.asc = ofZ 12 /\
  Sheet.compareColumnValues Sample.noHighlight Sample.allHighlightRows Sample.noText
    Sample.notANumber Sample.notANumber Sample.letterCompare
    Sample.rowAt12 Sample.rowAt0 "n" Sheet.Alphabetical Sheet.desc = ofZ 12.
Proof. split; vm_compute; reflexivity. Qed.

(** The letters [a] and [b], in both directions. *)
Example letters_follow_direction :
  Sample.comparePlain Sample.rowA Sample.rowB "n" Sheet.Alphabetical Sheet.asc
    = minusOne /\
  Sample.comparePlain Sample.rowA Sample.rowB "n" Sheet.Alphabetical Sheet.desc
    = one.
Proof. split; vm_compute; reflexivity. Qed.

(** * Further properties of the formula API *)

Section FilterFacts.

Variable f : Value -> Outcome Any.

Lemma FILTER_callable_cons (item : Value) (rest : list Value) :
  API.FILTER (item :: rest) (Callable f) =
    match f item with
    | Returns keep =>
        match API.FILTER rest (Callable f) with
        | Returns kept => Returns (if truthyAny keep then item :: kept else kept)
        | Throws e => Throws e
        end
    | Throws e => Throws e
    end.
Proof.
  unfold API.FILTER. cbn [API.Array_filter]. unfold OutcomeMonad.bind.
  destruct (f item); reflexivity.
Qed.

Lemma FILTER_callable_all_return (l : list Value) :
  Forall (returnsOn f) l ->
  API.FILTER l (Callable f) = Returns (List.filter (keptBy f) l).
Proof.
  induction 1 as [| item rest [r Hr] Hrest IH].
  - reflexivity.
  - rewrite FILTER_callable_cons, Hr, IH. cbn [List.filter].
    replace (keptBy f item) with (truthyAny r); [reflexivity |].
    unfold keptBy. rewrite Hr. reflexivity.
Qed.

Lemma FILTER_callable_returns_inv (l k : list Value) :
  API.FILTER l (Callable f) = Returns k -> Forall (returnsOn f) l.
Proof.
  revert k. induction l as [| item rest IH]; intros k Hk.
  - constructor.
  - rewrite FILTER_callable_cons in Hk.
    destruct (f item) as [keep | e] eqn:Hitem; [| discriminate].
    destruct (API.FILTER rest (Callable f)) as [kept | e] eqn:Hrest;
      [| discriminate].
    constructor; [exists keep; exact Hitem | now apply (IH kept)].
Qed.

Lemma filter_keptBy_returns (l : list Value) :
  Forall (returnsOn f) l -> Forall (returnsOn f) (List.filter (keptBy f) l).
Proof.
  induction 1 as [| item rest Hitem Hrest IH]; cbn [List.filter].
  - constructor.
  - destruct (keptBy f item); [constructor |]; assumption.
Qed.

End FilterFacts.






(** X2. With a callable condition, [FILTER] returns exactly when the
    condition returns on every element of the list, and it then
    returns the elements on which the condition gave a truthy value,
    in order. *)
Theorem FILTER_callable_returns_iff (f : Value -> Outcome Any) (l : list Value) :
  ((exists k, API.FILTER l (Callable f) = Returns k) <-> Forall (returnsOn f) l) /\
  (forall k, API.FILTER l (Callable f) = Returns k -> k = List.filter (keptBy f) l).
Proof.
  split; [split |].
  - intros [k Hk]. now apply (FILTER_callable_returns_inv f l k).
  - intros Hall. eexists. now apply FILTER_callable_all_return.
  - intros k Hk.
    pose proof (FILTER_callable_returns_inv f l k Hk) as Hall.
    rewrite (FILTER_callable_all_return f l Hall) in Hk. now injection Hk as <-.
Qed.

(** X3. With a callable condition that throws on some element,
    [FILTER] throws the exception of the first such element. *)
Theorem FILTER_callable_throws_first (f : Value -> Outcome Any)
    (pre post : list Value) (item : Value) (e : Exception) :
  Forall (returnsOn f) pre ->
  f item = Throws e ->
  API.FILTER (pre ++ item :: post) (Callable f) = Throws e.
Proof.
  intros Hpre Hitem. induction Hpre as [| x pre [r Hr] Hpre IH]; cbn [app].
  - rewrite FILTER_callable_cons, Hitem. reflexivity.
  - rewrite FILTER_callable_cons, Hr, IH. reflexivity.
Qed.

Lemma FILTER_callable_throws_first_witness :
  API.FILTER ([VSnippet Sample.milk] ++ VNull :: [VSnippet Sample.eggs])
    (Callable (Fragment.onSameLineWith (makeAPI Sample.snippets Sample.doc) Sample.two))
  = Throws TypeError.
Proof.
  apply FILTER_callable_throws_first.
  - repeat constructor. eexists. reflexivity.
  - reflexivity.
Defined.



Section SameLineFacts.

Variable doc : Text.

Lemma lineAt_number_cases (pos : Z) :
  TextOps.lineAt_number doc pos =
    if outside doc pos then Throws (RangeError pos)
    else Returns (TextOps.lineNumberFrom 1 0 (firstLine doc) (moreLines doc) pos).
Proof. reflexivity. Qed.

Lemma lineAt_number_returns_inside (pos n : Z) :
  TextOps.lineAt_number doc pos = Returns n ->
  0 <= pos <= TextOps.length doc /\
  n = TextOps.lineNumberFrom 1 0 (firstLine doc) (moreLines doc) pos.
Proof.
  rewrite lineAt_number_cases. unfold outside.
  destruct (Z.ltb_spec pos 0); [discriminate |].
  destruct (Z.ltb_spec (TextOps.length doc) pos); [discriminate |].
  cbn [orb]. intros Hn. injection Hn as <-. split; [lia | reflexivity].
Qed.

Lemma lineNumberFrom_lower (rest : list string) (number from : Z)
    (line : string) (pos : Z) :
  number <= TextOps.lineNumberFrom number from line rest pos.
Proof.
  revert number from line. induction rest as [| next rest IH];
    intros number from line; cbn [TextOps.lineNumberFrom].
  - lia.
  - destruct (pos <=? from + TextOps.len line); [lia |].
    specialize (IH (number + 1) (from + TextOps.len line + 1) next). lia.
Qed.

Lemma lineNumberFrom_monotone (rest : list string) (number from : Z)
    (line : string) (pos pos' : Z) :
  pos <= pos' ->
  TextOps.lineNumberFrom number from line rest pos <=
  TextOps.lineNumberFrom number from line rest pos'.
Proof.
  intros Hle. revert number from line.
  induction rest as [| next rest IH]; intros number from line;
    cbn [TextOps.lineNumberFrom].
  - lia.
  - destruct (Z.leb_spec pos (from + TextOps.len line)) as [Hin | Hout];
      destruct (Z.leb_spec pos' (from + TextOps.len line)) as [Hin' | Hout'].
    + lia.
    + pose proof (lineNumberFrom_lower rest (number + 1)
                    (from + TextOps.len line + 1) next pos'). lia.
    + lia.
    + apply IH.
Qed.

Lemma ON_SAME_LINE_true_inv (a b : Snippet) :
  API.ON_SAME_LINE doc a b = Returns true ->
  exists n,
    TextOps.lineAt_number doc (fst (span a)) = Returns n /\
    TextOps.lineAt_number doc (snd (span a)) = Returns n /\
    TextOps.lineAt_number doc (fst (span b)) = Returns n /\
    TextOps.lineAt_number doc (snd (span b)) = Returns n.
Proof.
  unfold API.ON_SAME_LINE, OutcomeMonad.bind.
  destruct (TextOps.lineAt_number doc (fst (span a))) as [n1 |]; [| discriminate].
  destruct (TextOps.lineAt_number doc (snd (span a))) as [n2 |]; [| discriminate].
  destruct (TextOps.lineAt_number doc (fst (span b))) as [n3 |]; [| discriminate].
  destruct (TextOps.lineAt_number doc (snd (span b))) as [n4 |]; [| discriminate].
  intros Heq. injection Heq as Heq.
  apply andb_prop in Heq as [Heq H13]. apply andb_prop in Heq as [H12 H34].
  apply Z.eqb_eq in H12, H34, H13.
  exists n1. rewrite <- H12, <- H34, <- H13. repeat split.
Qed.

Lemma ON_SAME_LINE_true_intro (a b : Snippet) (n : Z) :
  TextOps.lineAt_number doc (fst (span a)) = Returns n ->
  TextOps.lineAt_number doc (snd (span a)) = Returns n ->
  TextOps.lineAt_number doc (fst (span b)) = Returns n ->
  TextOps.lineAt_number doc (snd (span b)) = Returns n ->
  API.ON_SAME_LINE doc a b = Returns true.
Proof.
  intros Ha0 Ha1 Hb0 Hb1. unfold API.ON_SAME_LINE.
  rewrite Ha0, Ha1, Hb0, Hb1. cbn [OutcomeMonad.bind].
  rewrite Z.eqb_refl. reflexivity.
Qed.

End SameLineFacts.

(** X5. [ON_SAME_LINE(a, b)] returns a boolean exactly when the four
    offsets [a.span[0]], [a.span[1]], [b.span[0]], [b.span[1]] are
    positions of the document; otherwise it throws the [RangeError] of
    the first of them, in that order, that is not. *)
Theorem ON_SAME_LINE_throws_first_outside (doc : Text) (a b : Snippet) :
  match List.find (outside doc)
          [fst (span a); snd (span a); fst (span b); snd (span b)] with
  | Some pos => API.ON_SAME_LINE doc a b = Throws (RangeError pos)
  | None => exists r : bool, API.ON_SAME_LINE doc a b = Returns r
  end.
Proof.
  unfold API.ON_SAME_LINE. rewrite !lineAt_number_cases. cbn [List.find].
  destruct (outside doc (fst (span a))); [reflexivity |].
  destruct (outside doc (snd (span a))); [reflexivity |].
  destruct (outside doc (fst (span b))); [reflexivity |].
  destruct (outside doc (snd (span b))); [reflexivity |].
  eexists. reflexivity.
Qed.

(** [ON_SAME_LINE(a, b)] is [true] exactly when the four offsets of
    the two spans are positions of one and the same line. *)
Lemma ON_SAME_LINE_true_iff_one_line (doc : Text) (a b : Snippet) :
  API.ON_SAME_LINE doc a b = Returns true <->
  exists n,
    TextOps.lineAt_number doc (fst (span a)) = Returns n /\
    TextOps.lineAt_number doc (snd (span a)) = Returns n /\
    TextOps.lineAt_number doc (fst (span b)) = Returns n /\
    TextOps.lineAt_number doc (snd (span b)) = Returns n.
Proof.
  split.
  - apply ON_SAME_LINE_true_inv.
  - intros (n & Ha0 & Ha1 & Hb0 & Hb1).
    now apply (ON_SAME_LINE_true_intro doc a b n).
Qed.

(** X6. [ON_SAME_LINE] is transitive: if [a] and [b] are on the same
    line and [b] and [c] are, then so are [a] and [c]. *)
Theorem ON_SAME_LINE_transitive (doc : Text) (a b c : Snippet) :
  API.ON_SAME_LINE doc a b = Returns true ->
  API.ON_SAME_LINE doc b c = Returns true ->
  API.ON_SAME_LINE doc a c = Returns true.
Proof.
  intros Hab Hbc.
  apply ON_SAME_LINE_true_inv in Hab as (n & Ha0 & Ha1 & Hb0 & _).
  apply ON_SAME_LINE_true_inv in Hbc as (m & Hb0' & _ & Hc0 & Hc1).
  rewrite Hb0 in Hb0'. injection Hb0' as <-.
  now apply (ON_SAME_LINE_true_intro doc a c n).
Qed.

Lemma ON_SAME_LINE_transitive_witness :
  API.ON_SAME_LINE Sample.doc Sample.milk (mkSnippet "unit" (7, 11)) = Returns true.
Proof.
  apply (ON_SAME_LINE_transitive Sample.doc Sample.milk Sample.two); reflexivity.
Defined.



(** X8. A snippet whose two offsets lie within the span of a snippet
    that is on one line is on the same line as that snippet. *)
Theorem ON_SAME_LINE_nested (doc : Text) (a b : Snippet) :
  API.ON_SAME_LINE doc a a = Returns true ->
  fst (span a) <= fst (span b) <= snd (span a) ->
  fst (span a) <= snd (span b) <= snd (span a) ->
  API.ON_SAME_LINE doc a b = Returns true.
Proof.
  intros Haa Hb0 Hb1.
  apply ON_SAME_LINE_true_inv in Haa as (n & Ha0 & Ha1 & _ & _).
  pose proof (lineAt_number_returns_inside doc _ _ Ha0) as [Hin0 Hn0].
  pose proof (lineAt_number_returns_inside doc _ _ Ha1) as [Hin1 Hn1].
  assert (Hline : forall pos,
            fst (span a) <= pos <= snd (span a) ->
            TextOps.lineAt_number doc pos = Returns n).
  { intros pos Hpos.
    rewrite (lineAt_number_inside doc pos) by lia. f_equal.
    pose proof (lineNumberFrom_monotone (moreLines doc) 1 0 (firstLine doc)
                  (fst (span a)) pos ltac:(lia)).
    pose proof (lineNumberFrom_monotone (moreLines doc) 1 0 (firstLine doc)
                  pos (snd (span a)) ltac:(lia)).
    lia. }
  apply (ON_SAME_LINE_true_intro doc a b n); auto.
Qed.

Lemma ON_SAME_LINE_nested_witness :
  API.ON_SAME_LINE Sample.doc (mkSnippet "line" (0, 11)) Sample.two = Returns true.
Proof.
  apply (ON_SAME_LINE_nested Sample.doc (mkSnippet "line" (0, 11)) Sample.two).
  - reflexivity.
  - split; apply Z.leb_le; reflexivity.
  - split; apply Z.leb_le; reflexivity.
Defined.

(** * Further properties of the column evaluator *)

Section MoreEvaluationFacts.

Variable engine : Engine.
Variable snippets : list Snippet.
Variable doc : Text.

Local Abbreviation noRow := (yieldsNoRow engine snippets doc).

Lemma returns_nil_all_empty (columns : list FormulaColumn) :
  evaluateColumns engine columns snippets doc = Returns [] ->
  Forall noRow columns.
Proof.
  unfold evaluateColumns, evaluateColumns_traced. intros Hempty.
  destruct (columns_shape engine snippets doc columns)
    as [Hall | [(pre & post & c & e & Heq & Hpre & Hthrow)
              | (pre & post & c & result & Heq & Hpre & Hval & Hrows)]].
  - exact Hall.
  - subst columns.
    rewrite (loop_throws engine snippets doc pre post c e Hpre Hthrow) in Hempty.
    discriminate.
  - subst columns.
    rewrite (loop_rows engine snippets doc pre post c result Hpre Hval Hrows)
      in Hempty.
    cbn [snd] in Hempty. injection Hempty as Hnil.
    apply rowsOf_empty in Hnil. contradiction.
Qed.

Lemma traced_prefix (columns : list FormulaColumn) :
  exists rest,
    columns = fst (evaluateColumns_traced engine columns snippets doc) ++ rest.
Proof.
  unfold evaluateColumns_traced.
  destruct (columns_shape engine snippets doc columns)
    as [Hall | [(pre & post & c & e & Heq & Hpre & Hthrow)
              | (pre & post & c & result & Heq & Hpre & Hval & Hrows)]].
  - rewrite (loop_all_empty engine snippets doc columns Hall).
    exists []. cbn [fst]. now rewrite app_nil_r.
  - subst columns.
    rewrite (loop_throws engine snippets doc pre post c e Hpre Hthrow).
    exists post. cbn [fst]. now rewrite <- app_assoc.
  - subst columns.
    rewrite (loop_rows engine snippets doc pre post c result Hpre Hval Hrows).
    exists post. cbn [fst]. now rewrite <- app_assoc.
Qed.

Lemma traced_head (column : FormulaColumn) (rest : list FormulaColumn) :
  exists more,
    fst (evaluateColumns_traced engine (column :: rest) snippets doc)
      = column :: more.
Proof.
  unfold evaluateColumns_traced. rewrite loop_without_rows.
  destruct (evaluateFormula engine (formula column) snippets doc);
    eexists; reflexivity.
Qed.

End MoreEvaluationFacts.

(** X9. Whatever the outcome, the columns whose formula
    [evaluateColumns] evaluates are an initial segment of the column
    list, and the first column is always among them. *)
Theorem evaluated_columns_initial_segment (engine : Engine)
    (snippets : list Snippet) (doc : Text) (columns : list FormulaColumn) :
  (exists rest, columns = evaluatedColumns engine columns snippets doc ++ rest) /\
  head (evaluatedColumns engine columns snippets doc) = head columns.
Proof.
  split; [apply traced_prefix |].
  destruct columns as [| column rest]; [reflexivity |].
  unfold evaluatedColumns.
  destruct (traced_head engine snippets doc column rest) as [more ->].
  reflexivity.
Qed.

(** X10. Once the column list yields rows or throws, columns added at
    its end change nothing: neither the outcome nor the formulas that
    are evaluated. *)
Theorem appended_columns_are_ignored (engine : Engine)
    (snippets : list Snippet) (doc : Text) (columns extra : list FormulaColumn) :
  evaluateColumns engine columns snippets doc <> Returns [] ->
  evaluateColumns engine (columns ++ extra) snippets doc =
    evaluateColumns engine columns snippets doc /\
  evaluatedColumns engine (columns ++ extra) snippets doc =
    evaluatedColumns engine columns snippets doc.
Proof.
  unfold evaluateColumns, evaluatedColumns, evaluateColumns_traced. intros Hne.
  destruct (columns_shape engine snippets doc columns)
    as [Hall | [(pre & post & c & e & Heq & Hpre & Hthrow)
              | (pre & post & c & result & Heq & Hpre & Hval & Hrows)]].
  - rewrite (loop_all_empty engine snippets doc columns Hall) in Hne.
    now contradiction Hne.
  - subst columns. rewrite <- app_assoc. cbn [app].
    rewrite !(loop_throws engine snippets doc pre _ c e Hpre Hthrow).
    split; reflexivity.
  - subst columns. rewrite <- app_assoc. cbn [app].
    rewrite !(loop_rows engine snippets doc pre _ c result Hpre Hval Hrows).
    split; reflexivity.
Qed.

Lemma appended_columns_are_ignored_witness :
  evaluateColumns Fragment.engine
    ([Sample.column "a" "[1,2,3]"] ++ [Sample.column "b" "FIRST(undefined)"])
    Sample.snippets Sample.doc =
    evaluateColumns Fragment.engine [Sample.column "a" "[1,2,3]"]
      Sample.snippets Sample.doc /\
  evaluatedColumns Fragment.engine
    ([Sample.column "a" "[1,2,3]"] ++ [Sample.column "b" "FIRST(undefined)"])
    Sample.snippets Sample.doc =
    evaluatedColumns Fragment.engine [Sample.column "a" "[1,2,3]"]
      Sample.snippets Sample.doc.
Proof.
  apply appended_columns_are_ignored. discriminate.
Defined.

(** X11. Leading columns that give no row are passed over: when
    [evaluateColumns] returns the empty list on [columns], its outcome
    on [columns ++ extra] is its outcome on [extra], after every
    formula of [columns] has been evaluated. *)
Theorem empty_columns_are_passed_over (engine : Engine)
    (snippets : list Snippet) (doc : Text) (columns extra : list FormulaColumn) :
  evaluateColumns engine columns snippets doc = Returns [] ->
  evaluateColumns engine (columns ++ extra) snippets doc =
    evaluateColumns engine extra snippets doc /\
  evaluatedColumns engine (columns ++ extra) snippets doc =
    columns ++ evaluatedColumns engine extra snippets doc.
Proof.
  intros Hempty. apply returns_nil_all_empty in Hempty.
  unfold evaluateColumns, evaluatedColumns, evaluateColumns_traced.
  rewrite (loop_skips_empty engine snippets doc columns extra Hempty).
  split; reflexivity.
Qed.

Lemma empty_columns_are_passed_over_witness :
  evaluateColumns Fragment.engine
    ([Sample.column "a" "VALUES_OF_TYPE('drink')"] ++ [Sample.column "b" "99"])
    Sample.snippets Sample.doc =
    evaluateColumns Fragment.engine [Sample.column "b" "99"]
      Sample.snippets Sample.doc /\
  evaluatedColumns Fragment.engine
    ([Sample.column "a" "VALUES_OF_TYPE('drink')"] ++ [Sample.column "b" "99"])
    Sample.snippets Sample.doc =
    [Sample.column "a" "VALUES_OF_TYPE('drink')"] ++
    evaluatedColumns Fragment.engine [Sample.column "b" "99"]
      Sample.snippets Sample.doc.
Proof.
  apply empty_columns_are_passed_over. reflexivity.
Defined.

(** X12. Reading the rows back: when the first column that yields rows
    evaluates to the list [items], row [i] maps that column's name to
    [items[i]] and has no other key, and there are as many rows as
    items. *)
Theorem row_cell_is_list_element (engine : Engine)
    (snippets : list Snippet) (doc : Text)
    (pre post : list FormulaColumn) (column : FormulaColumn)
    (items : list Value) :
  Forall (yieldsNoRow engine snippets doc) pre ->
  evaluateFormula engine (formula column) snippets doc
    = Returns (Data (VArray items)) ->
  items <> [] ->
  exists rows : list ResultRow,
    evaluateColumns engine (pre ++ column :: post) snippets doc = Returns rows /\
    List.length rows = List.length items /\
    forall (i : nat) (item : Value),
      items !! i = Some item ->
      exists row : ResultRow,
        rows !! i = Some row /\
        row !! name column = Some (Data item) /\
        forall key, key <> name column -> row !! key = None.
Proof.
  intros Hpre Hval Hne.
  assert (Hresult : Data (VArray items) <> Data (VArray [])).
  { intros Heq. injection Heq as Heq. contradiction. }
  unfold evaluateColumns, evaluateColumns_traced.
  rewrite (loop_rows engine snippets doc pre post column _ Hpre Hval Hresult).
  cbn [snd rowsOf]. eexists. split; [reflexivity |].
  split; [apply length_map |].
  intros i item Hitem. eexists. split.
  - change (List.map ?g items) with (g <$> items).
    rewrite list_lookup_fmap, Hitem. reflexivity.
  - split.
    + apply lookup_singleton_eq.
    + intros key Hkey. apply lookup_singleton_ne. congruence.
Qed.

Lemma row_cell_is_list_element_witness :
  exists rows : list ResultRow,
    evaluateColumns Fragment.engine
      ([Sample.column "a" "[]"] ++
       Sample.column "b" "VALUES_OF_TYPE('food')" :: [Sample.column "c" "99"])
      Sample.snippets Sample.doc = Returns rows /\
    List.length rows = 2%nat /\
    forall (i : nat) (item : Value),
      [VSnippet Sample.milk; VSnippet Sample.eggs] !! i = Some item ->
      exists row : ResultRow,
        rows !! i = Some row /\
        row !! "b" = Some (Data item) /\
        forall key, key <> "b" -> row !! key = None.
Proof.
  apply (row_cell_is_list_element Fragment.engine Sample.snippets Sample.doc
           [Sample.column "a" "[]"] [Sample.column "c" "99"]
           (Sample.column "b" "VALUES_OF_TYPE('food')")
           [VSnippet Sample.milk; VSnippet Sample.eggs]).
  - repeat constructor.
  - reflexivity.
  - discriminate.
Defined.

(** * Further properties of the sort comparator *)

Lemma signOf_neg (x : number) : signOf (neg x) = oppositeSign (signOf x).
Proof.
  destruct x as [s | s | | s m e]; try destruct s; reflexivity.
Qed.

Lemma isZero_signOf (x : number) :
  isZero x = match signOf x with Some Eq => true | _ => false end.
Proof. reflexivity. Qed.

Lemma oppositeSign_involutive (s : option comparison) :
  oppositeSign (oppositeSign s) = s.
Proof. destruct s as [[| |] |]; reflexivity. Qed.

Lemma binary_round_opposite (m : positive) (e : Z) :
  signOf (binary_round prec emax true m e) =
  oppositeSign (signOf (binary_round prec emax false m e)).
Proof.
  unfold binary_round, binary_round_aux.
  destruct (shl_align m e _) as [mz ez].
  destruct (shr_fexp prec emax (Z.pos mz) ez loc_Exact) as [mrs' e'].
  destruct (shr_fexp prec emax _ e' loc_Exact) as [mrs'' e''].
  destruct (shr_m mrs'') as [| p | p]; try reflexivity.
  destruct (e'' <=? emax - prec); reflexivity.
Qed.

Lemma binary_normalize_opposite (d e : Z) :
  signOf (binary_normalize prec emax (- d) e false) =
  oppositeSign (signOf (binary_normalize prec emax d e false)).
Proof.
  destruct d as [| p | p]; cbn [Z.opp binary_normalize].
  - reflexivity.
  - apply binary_round_opposite.
  - rewrite binary_round_opposite, oppositeSign_involutive. reflexivity.
Qed.

(** Subtraction of doubles is antisymmetric in sign. *)
Lemma sub_antisymmetric (x y : number) :
  signOf (sub y x) = oppositeSign (signOf (sub x y)).
Proof.
  destruct x as [sx | sx | | sx mx ex], y as [sy | sy | | sy my ey];
    try (destruct sx, sy; reflexivity);
    try (destruct sx; reflexivity);
    try (destruct sy; reflexivity);
    try reflexivity.
  unfold sub, SFsub. rewrite (Z.min_comm ey ex).
  set (ez := Z.min ex ey).
  set (dx := cond_Zopp sx (Z.pos (fst (shl_align mx ex ez)))).
  set (dy := cond_Zopp sy (Z.pos (fst (shl_align my ey ez)))).
  replace (Z.sub dy dx) with (- (Z.sub dx dy)) by lia.
  apply binary_normalize_opposite.
Qed.

Section ComparatorSymmetry.

Import Sheet.

Variable isValueRowHighlight : Value -> bool.
Variable isValueRowHighlight_row : SheetValueRow -> bool.
Variable getTextForHighlight : Value -> Value.
Variable dateDifference floatDifference localeCompare : Value -> Value -> number.

Local Abbreviation value := (columnValue isValueRowHighlight getTextForHighlight).
Local Abbreviation primary :=
  (primaryComparison isValueRowHighlight getTextForHighlight
     dateDifference floatDifference localeCompare).
Local Abbreviation compare :=
  (compareColumnValues isValueRowHighlight isValueRowHighlight_row
     getTextForHighlight dateDifference floatDifference localeCompare).

Hypothesis date_antisymmetric : forall x y,
  signOf (dateDifference y x) = oppositeSign (signOf (dateDifference x y)).
Hypothesis float_antisymmetric : forall x y,
  signOf (floatDifference y x) = oppositeSign (signOf (floatDifference x y)).
Hypothesis locale_antisymmetric : forall x y,
  signOf (localeCompare y x) = oppositeSign (signOf (localeCompare x y)).

Lemma primary_antisymmetric (a b : SheetValueRow) (columnName : string)
    (sortMethod : SortMethod) :
  signOf (primary b a columnName sortMethod) =
  oppositeSign (signOf (primary a b columnName sortMethod)).
Proof.
  unfold primaryComparison.
  destruct (isUndefined (value a columnName)), (isUndefined (value b columnName));
    try reflexivity.
  destruct sortMethod; auto.
Qed.

Lemma tieBreak_antisymmetric (a b : SheetValueRow) :
  signOf (tieBreak isValueRowHighlight_row b a) =
  oppositeSign (signOf (tieBreak isValueRowHighlight_row a b)).
Proof.
  unfold tieBreak. rewrite (andb_comm (isValueRowHighlight_row b)).
  destruct (isValueRowHighlight_row a && isValueRowHighlight_row b);
    [apply sub_antisymmetric | reflexivity].
Qed.

(** X13. If the three comparisons of the runtime are antisymmetric in
    sign, so is [compareColumnValues], for every sort method and both
    directions: swapping the two rows swaps "before" and "after",
    keeps "equal" and keeps NaN. *)
Theorem compareColumnValues_antisymmetric (a b : SheetValueRow)
    (columnName : string) (sortMethod : SortMethod) (direction : Direction) :
  signOf (compare b a columnName sortMethod direction) =
  oppositeSign (signOf (compare a b columnName sortMethod direction)).
Proof.
  unfold compareColumnValues.
  pose proof (primary_antisymmetric a b columnName sortMethod) as Hprimary.
  set (p := primary a b columnName sortMethod) in *.
  set (q := primary b a columnName sortMethod) in *.
  assert (Hflip :
            signOf (match direction with desc => neg q | asc => q end) =
            oppositeSign
              (signOf (match direction with desc => neg p | asc => p end))).
  { destruct direction; [exact Hprimary |].
    rewrite !signOf_neg, Hprimary. reflexivity. }
  set (rp := match direction with desc => neg p | asc => p end) in *.
  set (rq := match direction with desc => neg q | asc => q end) in *.
  rewrite !isZero_signOf, Hflip.
  destruct (signOf rp) as [[| |] |] eqn:Hrp; cbn [oppositeSign CompOpp];
    try (rewrite Hflip, Hrp; reflexivity).
  apply tieBreak_antisymmetric.
Qed.

End ComparatorSymmetry.

Lemma letterCompare_antisymmetric (x y : Value) :
  signOf (Sample.letterCompare y x) =
  oppositeSign (signOf (Sample.letterCompare x y)).
Proof.
  destruct x, y; try reflexivity.
  cbn [Sample.letterCompare]. rewrite (String.compare_antisym s s0).
  destruct (String.compare s0 s); reflexivity.
Qed.

Lemma compareColumnValues_antisymmetric_witness :
  signOf (Sample.comparePlain Sample.rowUndefined Sample.rowA "n"
            Sheet.Alphabetical Sheet.desc) =
  oppositeSign
    (signOf (Sample.comparePlain Sample.rowA Sample.rowUndefined "n"
               Sheet.Alphabetical Sheet.desc)).
Proof.
  apply (compareColumnValues_antisymmetric Sample.noHighlight
           Sample.noHighlightRow Sample.noText
           Sample.notANumber Sample.notANumber Sample.letterCompare).
  - intros x y. reflexivity.
  - intros x y. reflexivity.
  - apply letterCompare_antisymmetric.
Defined.

(** X14. [compareColumnValues] reads of each row only the cell of the
    sort column, whether the row is a highlight, and the start of its
    span: rows that agree on these compare the same. *)
Theorem compareColumnValues_reads_cell_and_span_start
    (isValueRowHighlight : Value -> bool)
    (isValueRowHighlight_row : Sheet.SheetValueRow -> bool)
    (getTextForHighlight : Value -> Value)
    (dateDifference floatDifference localeCompare : Value -> Value -> number)
    (a a' b b' : Sheet.SheetValueRow) (columnName : string)
    (sortMethod : Sheet.SortMethod) (direction : Sheet.Direction) :
  Sheet.cell a columnName = Sheet.cell a' columnName ->
  Sheet.cell b columnName = Sheet.cell b' columnName ->
  isValueRowHighlight_row a = isValueRowHighlight_row a' ->
  isValueRowHighlight_row b = isValueRowHighlight_row b' ->
  fst (Sheet.span a) = fst (Sheet.span a') ->
  fst (Sheet.span b) = fst (Sheet.span b') ->
  Sheet.compareColumnValues isValueRowHighlight isValueRowHighlight_row
    getTextForHighlight dateDifference floatDifference localeCompare
    a b columnName sortMethod direction =
  Sheet.compareColumnValues isValueRowHighlight isValueRowHighlight_row
    getTextForHighlight dateDifference floatDifference localeCompare
    a' b' columnName sortMethod direction.
Proof.
  intros Hca Hcb Hga Hgb Hsa Hsb.
  unfold Sheet.compareColumnValues, Sheet.primaryComparison, Sheet.tieBreak,
    Sheet.columnValue.
  rewrite Hca, Hcb, Hga, Hgb, Hsa, Hsb. reflexivity.
Qed.

Lemma compareColumnValues_reads_cell_and_span_start_witness :
  Sheet.compareColumnValues Sample.noHighlight Sample.allHighlightRows
    Sample.noText Sample.notANumber Sample.notANumber Sample.letterCompare
    Sample.rowAt12 Sample.rowAt0 "n" Sheet.Alphabetical Sheet.asc =
  Sheet.compareColumnValues Sample.noHighlight Sample.allHighlightRows
    Sample.noText Sample.notANumber Sample.notANumber Sample.letterCompare
    (Sheet.mkRow {[ "n" := VString "a"; "m" := VString "z" ]} (12, 40))
    (Sheet.mkRow {[ "n" := VString "a"; "date" := VNull ]} (0, 1))
    "n" Sheet.Alphabetical Sheet.asc.
Proof.
  apply compareColumnValues_reads_cell_and_span_start; reflexivity.
Defined.

(** * Properties of the column settings, the sort state and the search range *)

Section SettingsFacts.

Import Settings.

Context {PropertyVisibility : Type}.
Variable Hidden : PropertyVisibility.

Local Abbreviation Property := (PropertyDefinition PropertyVisibility).

Lemma changeFormulaAt_lookup (properties : list Property) (changedIndex : Z)
    (formula : string) (i : nat) :
  changeFormulaAt properties changedIndex formula !! i =
    (fun column =>
       if Z.of_nat i =? changedIndex
       then mkProperty (name column) formula (visibility column)
       else column) <$> properties !! i.
Proof. unfold changeFormulaAt. apply list_lookup_imap. Qed.

Lemma changeNameAt_lookup (properties : list Property) (changedIndex : Z)
    (newName : string) (i : nat) :
  changeNameAt properties changedIndex newName !! i =
    (fun column =>
       if Z.of_nat i =? changedIndex
       then mkProperty newName (Settings.formula column) (visibility column)
       else column) <$> properties !! i.
Proof. unfold changeNameAt. apply list_lookup_imap. Qed.

(** X15. [changeFormulaAt] writes one formula and nothing else: the
    names and visibilities of all columns are kept, the list of
    formulas is the old one with the formula at [changedIndex]
    replaced, and an index outside the list leaves the list as it
    is. *)
Theorem changeFormulaAt_writes_one_formula (properties : list Property)
    (changedIndex : Z) (formula : string) :
  name <$> changeFormulaAt properties changedIndex formula = name <$> properties /\
  visibility <$> changeFormulaAt properties changedIndex formula
    = visibility <$> properties /\
  (forall i : nat,
     changedIndex = Z.of_nat i ->
     Settings.formula <$> changeFormulaAt properties changedIndex formula
       = <[ i := formula ]> (Settings.formula <$> properties)) /\
  (changedIndex < 0 \/ Z.of_nat (List.length properties) <= changedIndex ->
     changeFormulaAt properties changedIndex formula = properties).
Proof.
  repeat split.
  - apply list_eq. intros i.
    rewrite !list_lookup_fmap, changeFormulaAt_lookup.
    destruct (properties !! i) as [column |]; [| reflexivity]. cbn.
    destruct (Z.of_nat i =? changedIndex); reflexivity.
  - apply list_eq. intros i.
    rewrite !list_lookup_fmap, changeFormulaAt_lookup.
    destruct (properties !! i) as [column |]; [| reflexivity]. cbn.
    destruct (Z.of_nat i =? changedIndex); reflexivity.
  - intros i ->. apply list_eq. intros j.
    rewrite list_lookup_fmap, changeFormulaAt_lookup.
    destruct (decide (i = j)) as [<- | Hne].
    + rewrite Z.eqb_refl.
      destruct (properties !! i) as [column |] eqn:Hcol; cbn.
      * rewrite list_lookup_insert_eq; [reflexivity |].
        rewrite length_fmap. now apply lookup_lt_Some in Hcol.
      * rewrite list_insert_ge.
        -- rewrite list_lookup_fmap, Hcol. reflexivity.
        -- rewrite length_fmap. now apply lookup_ge_None in Hcol.
    + rewrite list_lookup_insert_ne by assumption.
      rewrite list_lookup_fmap.
      destruct (Z.eqb_spec (Z.of_nat j) (Z.of_nat i)) as [Heq | _]; [lia |].
      destruct (properties !! j); reflexivity.
  - intros Hout. apply list_eq. intros i. rewrite changeFormulaAt_lookup.
    destruct (properties !! i) as [column |] eqn:Hcol; [| reflexivity]. cbn.
    apply lookup_lt_Some in Hcol.
    destruct (Z.eqb_spec (Z.of_nat i) changedIndex) as [Heq | _]; [lia |].
    reflexivity.
Qed.

(** X16. [changeNameAt] writes one name and nothing else: the
    formulas and visibilities of all columns are kept, the list of
    names is the old one with the name at [changedIndex] replaced, and
    an index outside the list leaves the list as it is.  No check is
    made that the new name differs from the other names. *)
Theorem changeNameAt_writes_one_name (properties : list Property)
    (changedIndex : Z) (newName : string) :
  Settings.formula <$> changeNameAt properties changedIndex newName
    = Settings.formula <$> properties /\
  visibility <$> changeNameAt properties changedIndex newName
    = visibility <$> properties /\
  (forall i : nat,
     changedIndex = Z.of_nat i ->
     name <$> changeNameAt properties changedIndex newName
       = <[ i := newName ]> (name <$> properties)) /\
  (changedIndex < 0 \/ Z.of_nat (List.length properties) <= changedIndex ->
     changeNameAt properties changedIndex newName = properties).
Proof.
  repeat split.
  - apply list_eq. intros i.
    rewrite !list_lookup_fmap, changeNameAt_lookup.
    destruct (properties !! i) as [column |]; [| reflexivity]. cbn.
    destruct (Z.of_nat i =? changedIndex); reflexivity.
  - apply list_eq. intros i.
    rewrite !list_lookup_fmap, changeNameAt_lookup.
    destruct (properties !! i) as [column |]; [| reflexivity]. cbn.
    destruct (Z.of_nat i =? changedIndex); reflexivity.
  - intros i ->. apply list_eq. intros j.
    rewrite list_lookup_fmap, changeNameAt_lookup.
    destruct (decide (i = j)) as [<- | Hne].
    + rewrite Z.eqb_refl.
      destruct (properties !! i) as [column |] eqn:Hcol; cbn.
      * rewrite list_lookup_insert_eq; [reflexivity |].
        rewrite length_fmap. now apply lookup_lt_Some in Hcol.
      * rewrite list_insert_ge.
        -- rewrite list_lookup_fmap, Hcol. reflexivity.
        -- rewrite length_fmap. now apply lookup_ge_None in Hcol.
    + rewrite list_lookup_insert_ne by assumption.
      rewrite list_lookup_fmap.
      destruct (Z.eqb_spec (Z.of_nat j) (Z.of_nat i)) as [Heq | _]; [lia |].
      destruct (properties !! j); reflexivity.
  - intros Hout. apply list_eq. intros i. rewrite changeNameAt_lookup.
    destruct (properties !! i) as [column |] eqn:Hcol; [| reflexivity]. cbn.
    apply lookup_lt_Some in Hcol.
    destruct (Z.eqb_spec (Z.of_nat i) changedIndex) as [Heq | _]; [lia |].
    reflexivity.
Qed.

(** X17. Editing a name and editing a formula commute, at the same
    column or at different ones. *)
Theorem changeNameAt_changeFormulaAt_commute (properties : list Property)
    (nameIndex formulaIndex : Z) (newName formula : string) :
  changeNameAt (changeFormulaAt properties formulaIndex formula) nameIndex newName =
  changeFormulaAt (changeNameAt properties nameIndex newName) formulaIndex formula.
Proof.
  apply list_eq. intros i.
  rewrite changeNameAt_lookup, !changeFormulaAt_lookup, changeNameAt_lookup.
  destruct (properties !! i) as [column |]; [| reflexivity]. cbn.
  destruct (Z.of_nat i =? nameIndex), (Z.of_nat i =? formulaIndex); reflexivity.
Qed.

Lemma increment_exact (i : Z) : i < 2 ^ 53 -> increment i = i + 1.
Proof.
  intros Hlt. unfold increment.
  destruct (Z.ltb_spec i (2 ^ 53)); [reflexivity | lia].
Qed.

Lemma addColumns_spec (n : nat) (i : Z) (properties : list Property) :
  i + Z.of_nat n <= 2 ^ 53 ->
  addColumns Hidden n i properties =
    (i + Z.of_nat n,
     properties ++
       ((fun j => mkProperty ("col" +:+ pretty j) "" Hidden)
          <$> seqZ (i + 1) (Z.of_nat n))).
Proof.
  revert i properties. induction n as [| n IH]; intros i properties Hbound.
  - cbn [addColumns]. rewrite Z.add_0_r. cbn. now rewrite app_nil_r.
  - cbn [addColumns]. unfold addColumn.
    rewrite increment_exact by lia.
    rewrite IH by lia.
    f_equal; [lia |].
    rewrite <- app_assoc. f_equal.
    rewrite (seqZ_cons (i + 1) (Z.of_nat (S n))) by lia.
    cbn [fmap list_fmap app]. f_equal.
    f_equal. f_equal; lia.
Qed.

(** X18. As long as the counter stays within [2^53], [n] calls of
    [addColumn] append [n] columns after the existing ones, which are
    kept as they are; the new columns have an empty formula, are
    hidden, and are named [col] followed by the successive values of
    the counter, so that their names are pairwise distinct. *)
Theorem addColumn_appends_fresh_names (n : nat) (i : Z)
    (properties : list Property) :
  i + Z.of_nat n <= 2 ^ 53 ->
  exists added : list Property,
    addColumns Hidden n i properties = (i + Z.of_nat n, properties ++ added) /\
    List.length added = n /\
    Forall (fun column => Settings.formula column = "" /\
                          visibility column = Hidden) added /\
    name <$> added = (fun j => "col" +:+ pretty j) <$> seqZ (i + 1) (Z.of_nat n) /\
    NoDup (name <$> added).
Proof.
  intros Hbound. eexists. split; [now apply addColumns_spec |].
  split; [rewrite length_fmap, length_seqZ; lia |].
  split; [apply Forall_fmap, Forall_forall; intros j _; split; reflexivity |].
  rewrite <- list_fmap_compose.
  split; [reflexivity |].
  apply NoDup_fmap_2; [| apply NoDup_seqZ].
  intros j k Hjk. cbn in Hjk.
  apply (inj (String.append "col")) in Hjk. now apply (inj pretty) in Hjk.
Qed.

End SettingsFacts.

Lemma addColumn_appends_fresh_names_witness :
  exists added : list (Settings.PropertyDefinition bool),
    Settings.addColumns false 3 1 [Settings.mkProperty "date" "" true]
      = (1 + Z.of_nat 3, [Settings.mkProperty "date" "" true] ++ added) /\
    List.length added = 3%nat /\
    Forall (fun column => Settings.formula column = "" /\
                          Settings.visibility column = false) added /\
    Settings.name <$> added
      = (fun j => "col" +:+ pretty j) <$> seqZ (1 + 1) (Z.of_nat 3) /\
    NoDup (Settings.name <$> added).
Proof.
  apply (addColumn_appends_fresh_names false 3 1).
  apply Z.leb_le. reflexivity.
Defined.

(** The first column added in a session is [col2]. *)
Example first_added_column :
  Settings.addColumn false 1 [] = (2, [Settings.mkProperty "col2" "" false]).
Proof. reflexivity. Qed.

(** * The sort arrows and the search range *)

(** X19. A click on a sort arrow toggles whether the table is sorted
    by that column in that direction; the state it leaves is either
    "not sorted" or "sorted by that column in that direction", so a
    sort by another column or in the other direction is replaced; and
    a third click on the same arrow does what the first did. *)
Theorem sort_arrow_toggles (d : Sheet.Direction) (column : string)
    (sortBy : option Settings.SortBy) :
  Settings.sortedBy d column (Settings.click d column sortBy)
    = negb (Settings.sortedBy d column sortBy) /\
  (Settings.click d column sortBy = None \/
   Settings.click d column sortBy = Some (Settings.mkSortBy column d)) /\
  Settings.click d column (Settings.click d column (Settings.click d column sortBy))
    = Settings.click d column sortBy.
Proof.
  assert (Hrefl : String.eqb column column = true) by apply String.eqb_refl.
  destruct d, sortBy as [[c [|]] |]; cbn;
    try destruct (String.eqb c column) eqn:Hc; cbn;
    rewrite ?Hrefl; cbn; rewrite ?Hrefl; cbn; rewrite ?Hc; cbn; auto.
Qed.

(** X20. The two buttons under the sheet never store a search range
    of width 0: from a state without such a range, none appears after
    any sequence of [Clear] and limit-to-selection clicks. *)
Theorem search_range_never_empty (events : list Settings.RangeEvent)
    (highlightSearchRange : option Span) :
  Settings.rangeNotEmpty highlightSearchRange ->
  Settings.rangeNotEmpty
    (List.fold_left Settings.handleRange events highlightSearchRange).
Proof.
  revert highlightSearchRange.
  induction events as [| ev events IH]; intros range Hrange; cbn [List.fold_left].
  - exact Hrange.
  - apply IH. destruct ev as [| from to]; cbn.
    + exact I.
    + destruct (Z.eqb_spec from to) as [Heq | Hne]; cbn; assumption.
Qed.

Lemma search_range_never_empty_witness :
  Settings.rangeNotEmpty
    (List.fold_left Settings.handleRange
       [Settings.LimitToSelection 4 4; Settings.LimitToSelection 3 9;
        Settings.LimitToSelection 7 7]
       None).
Proof.
  apply search_range_never_empty. exact I.
Defined.

(** * Composition of the API functions *)

Lemma FIRST_filter (p : Value -> bool) (l : list Value) :
  API.FIRST (List.filter p l) =
    match List.find p l with
    | Some item => item
    | None => VUndefined
    end.
Proof.
  induction l as [| item rest IH]; cbn [List.filter List.find].
  - reflexivity.
  - destruct (p item); [reflexivity | exact IH].
Qed.

(** X21. [FIRST(FILTER(list, condition))] with a callable condition is
    the first element of [list] on which the condition gives a truthy
    value, and [undefined] when there is none. *)
Theorem FIRST_of_FILTER_is_first_match (f : Value -> Outcome Any)
    (l k : list Value) :
  API.FILTER l (Callable f) = Returns k ->
  API.FIRST k =
    match List.find (keptBy f) l with
    | Some item => item
    | None => VUndefined
    end.
Proof.
  intros Hk.
  pose proof (FILTER_callable_returns_inv f l k Hk) as Hall.
  rewrite (FILTER_callable_all_return f l Hall) in Hk. injection Hk as <-.
  apply FIRST_filter.
Qed.

Lemma FIRST_of_FILTER_is_first_match_witness :
  API.FIRST [VSnippet Sample.eggs; VSnippet Sample.three] = VSnippet Sample.eggs.
Proof.
  apply (FIRST_of_FILTER_is_first_match
           (Fragment.onSameLineWith (makeAPI Sample.snippets Sample.doc) Sample.three)
           (List.map VSnippet Sample.snippets)).
  reflexivity.
Defined.
